(** * Request signing for the Z.AI API: a model of [signature.py]

    The module under study has three functions: [decode_jwt_payload],
    [zs] and [generate_zs_signature].  They are embedded below as Rocq
    functions over Python values; the calls they make into the Python
    library that the results depend on bit for bit (SHA-256, HMAC, hex
    digests, UTF-8 encoding, [str] of an integer, [str.split]) are
    modelled concretely and can be run, the others ([json.loads],
    [base64.urlsafe_b64decode], [repr], the log sink, the interpreter's
    limit on the digits of an integer) are fields of a [Runtime] over
    which every theorem is quantified. *)

From Stdlib Require Import ZArith String Ascii Bool Lia List.
From Stdlib Require Import DecimalString DecimalZ.
Import ListNotations.
Open Scope Z_scope.

(** ** Python data *)

(** A [bytes] object: octets, each in [0, 256). *)
Definition bytes := list Z.

(** A [str] object: a sequence of Unicode code points.  [len] counts code
    points, as Python does. *)
Definition pystr := list Z.

(** An ASCII literal of the source as a [str]. *)
Definition lit (s : string) : pystr :=
  map (fun c => Z.of_N (N_of_ascii c)) (list_ascii_of_string s).

Definition len {A} (l : list A) : Z := Z.of_nat (length l).

(** ['=' * k]: repetition of a one-character string; empty for [k <= 0]. *)
Definition str_mul (s : pystr) (k : Z) : pystr :=
  concat (repeat s (Z.to_nat k)).

(** ** hashlib.sha256 (FIPS 180-4), on 32-bit words held in [Z] *)

Module SHA256.

Definition wrap (x : Z) : Z := x mod 2 ^ 32.
Definition add32 (x y : Z) : Z := wrap (x + y).
Definition rotr (n x : Z) : Z :=
  Z.lor (Z.shiftr x n) (wrap (Z.shiftl x (32 - n))).
Definition not32 (x : Z) : Z := Z.lxor x (2 ^ 32 - 1).

Definition Ch (x y z : Z) : Z := Z.lxor (Z.land x y) (Z.land (not32 x) z).
Definition Maj (x y z : Z) : Z :=
  Z.lxor (Z.lxor (Z.land x y) (Z.land x z)) (Z.land y z).
Definition bsig0 (x : Z) : Z := Z.lxor (Z.lxor (rotr 2 x) (rotr 13 x)) (rotr 22 x).
Definition bsig1 (x : Z) : Z := Z.lxor (Z.lxor (rotr 6 x) (rotr 11 x)) (rotr 25 x).
Definition ssig0 (x : Z) : Z := Z.lxor (Z.lxor (rotr 7 x) (rotr 18 x)) (Z.shiftr x 3).
Definition ssig1 (x : Z) : Z := Z.lxor (Z.lxor (rotr 17 x) (rotr 19 x)) (Z.shiftr x 10).

(** The first [count] primes, by trial division from [n] upwards. *)
Definition is_prime (n : Z) : bool :=
  forallb (fun d => negb (n mod d =? 0))
          (map (fun i => Z.of_nat i + 2) (seq 0 (Z.to_nat (Z.sqrt n) - 1))).

Fixpoint primes_from (fuel : nat) (n : Z) (count : nat) : list Z :=
  match fuel, count with
  | O, _ | _, O => []
  | S fuel', S count' =>
      if is_prime n then n :: primes_from fuel' (n + 1) count'
      else primes_from fuel' (n + 1) count
  end.

Definition first_primes (count : nat) : list Z := primes_from 400 2 count.

(** The integer cube root below [2 ^ bits], one bit at a time. *)
Fixpoint cube_root (bits : nat) (r n : Z) : Z :=
  match bits with
  | O => r
  | S bits' =>
      let r' := r + 2 ^ Z.of_nat bits' in
      cube_root bits' (if r' * r' * r' <=? n then r' else r) n
  end.

(** The round constants: the first thirty-two bits of the fractional parts
    of the cube roots of the first sixty-four primes. *)
Definition K : list Z :=
  Eval vm_compute in
    map (fun p => wrap (cube_root 36 0 (p * 2 ^ 96))) (first_primes 64).

(** The eight working variables / the running hash value. *)
Record state := State {
  ra : Z; rb : Z; rc : Z; rd : Z; re : Z; rf : Z; rg : Z; rh : Z }.

(** The initial hash value: the first thirty-two bits of the fractional
    parts of the square roots of the first eight primes. *)
Definition init : state :=
  Eval vm_compute in
    let h i := wrap (Z.sqrt (nth i (first_primes 8) 0 * 2 ^ 64)) in
    State (h 0%nat) (h 1%nat) (h 2%nat) (h 3%nat)
          (h 4%nat) (h 5%nat) (h 6%nat) (h 7%nat).

(** Big-endian serialisation of a word, and its inverse on four octets. *)
Definition word_bytes (w : Z) : bytes :=
  [ Z.shiftr w 24 mod 256; Z.shiftr w 16 mod 256; Z.shiftr w 8 mod 256; w mod 256 ].

Definition be_word (b0 b1 b2 b3 : Z) : Z :=
  Z.lor (Z.lor (Z.shiftl b0 24) (Z.shiftl b1 16)) (Z.lor (Z.shiftl b2 8) b3).

Fixpoint words (bs : bytes) : list Z :=
  match bs with
  | b0 :: b1 :: b2 :: b3 :: rest => be_word b0 b1 b2 b3 :: words rest
  | _ => []
  end.

(** Padding: a one bit, zeros up to 56 mod 64, the bit length on 64 bits. *)
Definition pad (m : bytes) : bytes :=
  let l := len m in
  m ++ [0x80] ++ repeat 0 (Z.to_nat ((55 - l) mod 64))
    ++ word_bytes (Z.shiftr (8 * l) 32) ++ word_bytes (8 * l).

(** The message schedule: sixteen words extended to sixty-four. *)
Fixpoint extend (k : nat) (w : list Z) : list Z :=
  match k with
  | O => w
  | S k' =>
      let t := length w in
      let x i := nth (t - i) w 0 in
      extend k' (w ++ [add32 (add32 (ssig1 (x 2%nat)) (x 7%nat))
                             (add32 (ssig0 (x 15%nat)) (x 16%nat))])
  end.

Definition round (s : state) (kw : Z * Z) : state :=
  let t1 := add32 (add32 (add32 (rh s) (bsig1 (re s))) (Ch (re s) (rf s) (rg s)))
                  (add32 (fst kw) (snd kw)) in
  let t2 := add32 (bsig0 (ra s)) (Maj (ra s) (rb s) (rc s)) in
  State (add32 t1 t2) (ra s) (rb s) (rc s) (add32 (rd s) t1) (re s) (rf s) (rg s).

Definition compress (h : state) (block : bytes) : state :=
  let s := fold_left round (combine K (extend 48 (words block))) h in
  State (add32 (ra h) (ra s)) (add32 (rb h) (rb s)) (add32 (rc h) (rc s))
        (add32 (rd h) (rd s)) (add32 (re h) (re s)) (add32 (rf h) (rf s))
        (add32 (rg h) (rg s)) (add32 (rh h) (rh s)).

(** Consecutive 64-octet blocks; [fuel] bounds their number. *)
Fixpoint blocks (fuel : nat) (m : bytes) : list bytes :=
  match fuel, m with
  | O, _ | _, [] => []
  | S fuel', _ => firstn 64 m :: blocks fuel' (skipn 64 m)
  end.

Definition state_bytes (s : state) : bytes :=
  word_bytes (ra s) ++ word_bytes (rb s) ++ word_bytes (rc s) ++ word_bytes (rd s)
  ++ word_bytes (re s) ++ word_bytes (rf s) ++ word_bytes (rg s) ++ word_bytes (rh s).

(** [hashlib.sha256(m).digest()] *)
Definition digest (m : bytes) : bytes :=
  let p := pad m in
  state_bytes (fold_left compress (blocks (length p) p) init).

End SHA256.

(** ** hmac.new(key, msg, hashlib.sha256) (RFC 2104) *)

Module HMAC.

Definition block_size : Z := 64.

Definition xor_with (c : Z) (k : bytes) : bytes := map (Z.lxor c) k.

(** A key longer than a block is hashed first; then it is zero-filled to a block. *)
Definition block_key (key : bytes) : bytes :=
  let k := if block_size <? len key then SHA256.digest key else key in
  k ++ repeat 0 (Z.to_nat (block_size - len k)).

Definition digest (key msg : bytes) : bytes :=
  let k := block_key key in
  SHA256.digest (xor_with 0x5c k ++ SHA256.digest (xor_with 0x36 k ++ msg)).

Definition hexchars : pystr := lit "0123456789abcdef".

Definition hex_byte (b : Z) : pystr :=
  [ nth (Z.to_nat (b / 16)) hexchars 63; nth (Z.to_nat (b mod 16)) hexchars 63 ].

(** [bytes.hex()] *)
Definition hex (bs : bytes) : pystr := flat_map hex_byte bs.

(** [hmac.new(key, msg, hashlib.sha256).hexdigest()] *)
Definition hexdigest (key msg : bytes) : pystr := hex (digest key msg).

End HMAC.


(** ** Exceptions and results *)

(** The exceptions that occur, by class; all of them derive from
    [Exception].  [binascii.Error] and [json.JSONDecodeError] are subclasses
    of [ValueError] in Python; here every class has its own constructor. *)
Inductive exn : Type :=
| IndexError
| KeyError (key : pystr)
| TypeError
| ValueError
| BinasciiError
| JSONDecodeError
| UnicodeDecodeError
| UnicodeEncodeError
| RecursionError
| OSError.

(** The outcome of evaluating an expression: a value, or a raised exception. *)
Inductive result (A : Type) : Type :=
| Ok (a : A)
| Raise (e : exn).
Arguments Ok {A} a.
Arguments Raise {A} e.

Definition bind_result {A B} (r : result A) (k : A -> result B) : result B :=
  match r with
  | Ok a => k a
  | Raise e => Raise e
  end.

Notation "'let?' x := r 'in' k" := (bind_result r (fun x => k))
  (at level 10, x name, r at level 100, k at level 200).

(** ** Built-ins on [str], [int] and [list] *)

(** The decimal numeral of an integer: decimal digits, a leading minus
    sign when negative.  It is what [str(n)] returns when it returns (see
    [str_int] below). *)
Definition decimal (n : Z) : pystr :=
  lit (NilZero.string_of_int (Z.to_int n)).

(** [s.split(sep)] for a one-character separator: the maximal pieces
    between occurrences of [sep]; never empty. *)
Fixpoint str_split (sep : Z) (s : pystr) : list pystr :=
  match s with
  | [] => [[]]
  | c :: s' =>
      if c =? sep then [] :: str_split sep s'
      else match str_split sep s' with
           | [] => [[c]]
           | p :: ps => (c :: p) :: ps
           end
  end.

(** [l[i]] for a list and a non-negative constant index. *)
Definition list_item {A} (l : list A) (i : nat) : result A :=
  match nth_error l i with
  | Some x => Ok x
  | None => Raise IndexError
  end.

(** [s.encode('utf-8')].  The surrogate code points U+D800..U+DFFF have no
    UTF-8 form and raise [UnicodeEncodeError]; so does, in this model, a
    number outside the code space, which no Python [str] holds. *)
Definition utf8_char (c : Z) : result bytes :=
  if c <? 0 then Raise UnicodeEncodeError
  else if c <? 0x80 then Ok [c]
  else if c <? 0x800 then Ok [0xC0 + c / 64; 0x80 + c mod 64]
  else if (0xD800 <=? c) && (c <=? 0xDFFF) then Raise UnicodeEncodeError
  else if c <? 0x10000 then
    Ok [0xE0 + c / 4096; 0x80 + (c / 64) mod 64; 0x80 + c mod 64]
  else if c <? 0x110000 then
    Ok [0xF0 + c / 262144; 0x80 + (c / 4096) mod 64;
        0x80 + (c / 64) mod 64; 0x80 + c mod 64]
  else Raise UnicodeEncodeError.

Fixpoint encode_utf8 (s : pystr) : result bytes :=
  match s with
  | [] => Ok []
  | c :: s' =>
      let? b := utf8_char c in
      let? bs := encode_utf8 s' in
      Ok (b ++ bs)
  end.

(** ** Python objects that [json.loads] can return, and dicts built by the code *)

#[local] Set Warnings "-register-all".
Inductive value : Type :=
| PyNone
| PyBool (b : bool)
| PyInt (n : Z)
| PyFloat (bits : Z)                      (* an IEEE 754 binary64, by its bit pattern *)
| PyStr (s : pystr)
| PyList (items : list value)
| PyDict (items : list (pystr * value)).  (* in insertion order, keys distinct *)

Definition str_eqb (a b : pystr) : bool :=
  if list_eq_dec Z.eq_dec a b then true else false.

Fixpoint dict_get (d : list (pystr * value)) (k : pystr) : option value :=
  match d with
  | [] => None
  | (k', v) :: d' => if str_eqb k' k then Some v else dict_get d' k
  end.

(** [v[k]] with a [str] key: only a dict can be subscripted by a string. *)
Definition getitem (v : value) (k : pystr) : result value :=
  match v with
  | PyDict d =>
      match dict_get d k with
      | Some x => Ok x
      | None => Raise (KeyError k)
      end
  | _ => Raise TypeError
  end.

(** ** The runtime the module runs in

    What the module imports and does not define.  [json.loads],
    [base64.urlsafe_b64decode] and [repr] are library functions;
    [debug_log] comes from [app.utils.helpers].  None of them is given
    any property: the theorems hold for every runtime. *)

Class Runtime : Type := {
  (** the state of the process outside the arguments: the log, a clock, ... *)
  World : Type;
  (** [debug_log(message)]: may change the world, may raise *)
  debug_log : pystr -> World -> result unit * World;
  (** [base64.urlsafe_b64decode(s)] on a [str] *)
  urlsafe_b64decode : pystr -> result bytes;
  (** [json.loads(b)] on [bytes] *)
  json_loads : bytes -> result value;
  (** [repr(v)] *)
  repr : value -> pystr;
  (** [sys.get_int_max_str_digits()]: the most digits an [int] may have
      for [str] to convert it, 4300 unless the interpreter is set
      otherwise; 0 for no limit *)
  int_max_str_digits : Z;
  (** [str(e)] of an exception *)
  exn_str : exn -> pystr }.

(** Statements that may log: a world goes in, an outcome and a world come out. *)
Definition M `{Runtime} (A : Type) : Type := World -> result A * World.

Definition ret `{Runtime} {A} (a : A) : M A := fun w => (Ok a, w).

Definition bind `{Runtime} {A B} (c : M A) (k : A -> M B) : M B :=
  fun w =>
    match c w with
    | (Ok a, w') => k a w'
    | (Raise e, w') => (Raise e, w')
    end.

(** An expression without effects, as a statement. *)
Definition lift `{Runtime} {A} (r : result A) : M A := fun w => (r, w).

(** [try: body / except Exception as e: handler]. *)
Definition try_except `{Runtime} {A} (body : M A) (handler : exn -> M A) : M A :=
  fun w =>
    match body w with
    | (Ok a, w') => (Ok a, w')
    | (Raise e, w') => handler e w'
    end.

Notation "x <- c ;; k" := (bind c (fun x => k))
  (at level 100, c at next level, right associativity).

(** ** The module *)

Section Signature.

Context `{RT : Runtime}.

(** [str(n)] for an [int], and an [int] in a replacement field of an
    f-string.  CPython (from 3.11 on, and in the security releases of
    3.7 to 3.10) converts the number and then raises [ValueError] when the
    text has more than 640 characters and more digits, the sign not
    counted, than the limit of the interpreter. *)
Definition str_int (n : Z) : result pystr :=
  let s := decimal n in
  let digits := len s - (if n <? 0 then 1 else 0) in
  if (640 <? len s) && (0 <? int_max_str_digits)
     && (int_max_str_digits <? digits)
  then Raise ValueError
  else Ok s.

(** A replacement field [{v}] of an f-string: [format(v, '')], which is
    [str(v)]; for floats, lists and dicts [str] is [repr]. *)
Definition format_value (v : value) : result pystr :=
  match v with
  | PyStr s => Ok s
  | PyInt n => str_int n
  | PyBool true => Ok (lit "True")
  | PyBool false => Ok (lit "False")
  | PyNone => Ok (lit "None")
  | PyFloat _ | PyList _ | PyDict _ => Ok (repr v)
  end.

(** Lines 17-35. *)
Definition decode_jwt_payload (token : pystr) : result value :=
  let parts := str_split 46 token in
  let? payload := list_item parts 1 in
  let padding := 4 - len payload mod 4 in
  let payload :=
    if negb (padding =? 4) then payload ++ str_mul (lit "=") padding
    else payload in
  let? decoded := urlsafe_b64decode payload in
  json_loads decoded.

(** Lines 38-60. *)
Definition zs (e t : pystr) (timestamp : Z) : result value :=
  let? r := str_int timestamp in
  let i := e ++ lit "|" ++ t ++ lit "|" ++ r in
  let n := timestamp / (5 * 60 * 1000) in
  let? key := encode_utf8 (lit "junjie") in
  let? n_str := str_int n in
  let? n_bytes := encode_utf8 n_str in
  let o := HMAC.hexdigest key n_bytes in
  let? o_bytes := encode_utf8 o in
  let? i_bytes := encode_utf8 i in
  let signature := HMAC.hexdigest o_bytes i_bytes in
  Ok (PyDict [ (lit "signature", PyStr signature);
               (lit "timestamp", PyInt timestamp) ]).

(** The text before [{e}] in the log message of line 81. *)
Definition log_prefix : pystr :=
  [0x89e3; 0x7801] ++ lit "JWT token" ++ [0x5931; 0x8d25] ++ lit ": ".

(** Lines 63-88. *)
Definition generate_zs_signature
  (token request_id : pystr) (timestamp : Z) (user_content : pystr) : M value :=
  user_id <-
    try_except
      (lift (let? payload := decode_jwt_payload token in
             getitem payload (lit "id")))
      (fun e =>
         _ <- debug_log (log_prefix ++ exn_str e) ;;
         ret (PyStr (lit "guest-user"))) ;;
  lift (let? ts := str_int timestamp in
        let? uid := format_value user_id in
        let e := lit "requestId," ++ request_id ++ lit ",timestamp,"
                 ++ ts ++ lit ",user_id," ++ uid in
        zs e user_content timestamp).

(** *** Parts of the functions that the properties speak about *)

(** The dict of lines 57-60. *)
Definition signature_result (signature : pystr) (timestamp : Z) : value :=
  PyDict [ (lit "signature", PyStr signature);
           (lit "timestamp", PyInt timestamp) ].

(** The body of the [try] of lines 77-79: the value of [payload['id']]. *)
Definition extract_user_id (token : pystr) : result value :=
  let? payload := decode_jwt_payload token in
  getitem payload (lit "id").

(** Lines 77-82: the value of [user_id] after the [try] statement. *)
Definition derive_user_id (token : pystr) : M value :=
  try_except
    (lift (extract_user_id token))
    (fun e =>
       _ <- debug_log (log_prefix ++ exn_str e) ;;
       ret (PyStr (lit "guest-user"))).

(** The value of [o] at line 54. *)
Definition zs_o (timestamp : Z) : result pystr :=
  let n := timestamp / (5 * 60 * 1000) in
  let? key := encode_utf8 (lit "junjie") in
  let? n_str := str_int n in
  let? n_bytes := encode_utf8 n_str in
  Ok (HMAC.hexdigest key n_bytes).

(** The payload segment as line 34 passes it to the decoder (lines 30-32). *)
Definition padded_payload (payload : pystr) : pystr :=
  let padding := 4 - len payload mod 4 in
  if negb (padding =? 4) then payload ++ str_mul (lit "=") padding
  else payload.

(** The value of [e] at line 85. *)
Definition descriptor (request_id : pystr) (timestamp : Z) (user_id : value)
  : result pystr :=
  let? ts := str_int timestamp in
  let? uid := format_value user_id in
  Ok (lit "requestId," ++ request_id ++ lit ",timestamp,"
      ++ ts ++ lit ",user_id," ++ uid).

End Signature.

(** ** The specification's wording, for comparison *)

Module Spec.

(** "compute the required padding length as (4 - length % 4) % 4" *)
Definition padding_length (length : Z) : Z := (4 - length mod 4) mod 4.

(** "[b] is the UTF-8 bytes of [s]" *)
Definition utf8_of (s : pystr) (b : bytes) : Prop := encode_utf8 s = Ok b.

(** A string that has UTF-8 bytes: one without surrogate code points. *)
Definition encodable (s : pystr) : Prop := exists b, utf8_of s b.

(** Section 4.3, steps 1-6: [sig] is the final signature for [(e, t, timestamp)]. *)
Definition final_signature (e t : pystr) (timestamp : Z) (sig : pystr) : Prop :=
  exists key n_bytes o_bytes i_bytes,
    let r := decimal timestamp in
    let i := e ++ lit "|" ++ t ++ lit "|" ++ r in
    let n := timestamp / (5 * 60 * 1000) in
    let o := HMAC.hexdigest key n_bytes in
    utf8_of (lit "junjie") key /\
    utf8_of (decimal n) n_bytes /\
    utf8_of o o_bytes /\
    utf8_of i i_bytes /\
    sig = HMAC.hexdigest o_bytes i_bytes.

(** An octet, and a code point of the ASCII range. *)
Definition is_byte (b : Z) : Prop := 0 <= b < 256.
Definition is_ascii (c : Z) : Prop := 0 <= c < 128.

(** "a plain base-10 integer, no separators": decimal digits only, after a
    minus sign for a negative number. *)
Definition decimal_digit (c : Z) : Prop := 48 <= c <= 57.

(** The number that a digit string denotes in base ten. *)
Definition decimal_value (digits : pystr) : Z :=
  fold_left (fun a c => 10 * a + (c - 48)) digits 0.

Definition plain_decimal (n : Z) (s : pystr) : Prop :=
  exists digits,
    s = (if n <? 0 then lit "-" else []) ++ digits
    /\ digits <> [] /\ Forall decimal_digit digits
    /\ decimal_value digits = Z.abs n.

(** "fewer than two dot-separated segments, payload segment not valid
    base64, decoded bytes not valid JSON, or decoded JSON object lacking
    the key id" *)
Definition extraction_fails `{Runtime} (token : pystr) : Prop :=
  let parts := str_split 46 token in
  len parts < 2
  \/ (exists p x,
        list_item parts 1 = Ok p
        /\ urlsafe_b64decode (padded_payload p) = Raise x)
  \/ (exists p b x,
        list_item parts 1 = Ok p
        /\ urlsafe_b64decode (padded_payload p) = Ok b
        /\ json_loads b = Raise x)
  \/ (exists p b d,
        list_item parts 1 = Ok p
        /\ urlsafe_b64decode (padded_payload p) = Ok b
        /\ json_loads b = Ok (PyDict d)
        /\ dict_get d (lit "id") = None).

(** "the payload segment decodes to a JSON object" [d] *)
Definition payload_object `{Runtime} (token : pystr) (d : list (pystr * value)) : Prop :=
  exists p b,
    list_item (str_split 46 token) 1 = Ok p
    /\ urlsafe_b64decode (padded_payload p) = Ok b
    /\ json_loads b = Ok (PyDict d).

(** "a 64-character lowercase hexadecimal string" *)
Definition lower_hex_char (c : Z) : bool :=
  ((48 <=? c) && (c <=? 57)) || ((97 <=? c) && (c <=? 102)).

Definition hex64 (s : pystr) : Prop :=
  length s = 64%nat /\ forallb lower_hex_char s = true.

End Spec.

(** ** A runtime to run the module in

    The log sink keeps the lines it was given.  The decoder follows
    CPython 3.11 ([binascii.a2b_base64] without strict mode).  The JSON
    reader covers a fragment of [json.loads]: ASCII text, objects, arrays,
    strings with the single-character escapes, integers, [true], [false],
    [null]; on anything else it raises [JSONDecodeError], also where
    [json.loads] would not (floats, [\u] escapes, text outside ASCII). *)

Module Demo.

(** *** base64 *)

Definition b64_value (c : Z) : option Z :=
  if (65 <=? c) && (c <=? 90) then Some (c - 65)
  else if (97 <=? c) && (c <=? 122) then Some (c - 71)
  else if (48 <=? c) && (c <=? 57) then Some (c + 4)
  else if c =? 43 then Some 62
  else if c =? 47 then Some 63
  else None.

(** The loop of [a2b_base64]: [quad] is the position in the current group
    of four, [left] the bits not yet written, [pads] the count of ['=']
    seen since the last data character, [out] the output so far, reversed. *)
Fixpoint a2b_loop (s : bytes) (quad left pads : Z) (out : bytes) : result bytes :=
  match s with
  | [] => if quad =? 0 then Ok (rev out) else Raise BinasciiError
  | c :: s' =>
      if c =? 61 then
        if (2 <=? quad) && (4 <=? quad + (pads + 1)) then Ok (rev out)
        else a2b_loop s' quad left (if 2 <=? quad then pads + 1 else pads) out
      else
        match b64_value c with
        | None => a2b_loop s' quad left pads out
        | Some v =>
            if quad =? 0 then a2b_loop s' 1 v 0 out
            else if quad =? 1 then
              a2b_loop s' 2 (v mod 16) 0 ((left * 4 + v / 16) :: out)
            else if quad =? 2 then
              a2b_loop s' 3 (v mod 4) 0 ((left * 16 + v / 4) :: out)
            else a2b_loop s' 0 0 0 ((left * 64 + v) :: out)
        end
  end.

(** [urlsafe_b64decode]: the [str] must be ASCII; ['-'] and ['_'] stand
    for ['+'] and ['/']. *)
Definition b64decode (s : pystr) : result bytes :=
  if forallb (fun c => c <? 128) s then
    a2b_loop (map (fun c => if c =? 45 then 43 else if c =? 95 then 47 else c) s)
             0 0 0 []
  else Raise ValueError.

(** *** JSON, a fragment *)

Definition is_ws (c : Z) : bool :=
  (c =? 32) || (c =? 9) || (c =? 10) || (c =? 13).

Definition is_digit (c : Z) : bool := (48 <=? c) && (c <=? 57).

Fixpoint skip_ws (s : bytes) : bytes :=
  match s with
  | c :: s' => if is_ws c then skip_ws s' else s
  | [] => []
  end.

Fixpoint strip_prefix (p s : bytes) : option bytes :=
  match p, s with
  | [], _ => Some s
  | a :: p', b :: s' => if a =? b then strip_prefix p' s' else None
  | _ :: _, [] => None
  end.

Definition unescape (c : Z) : option Z :=
  if c =? 34 then Some 34 else if c =? 92 then Some 92
  else if c =? 47 then Some 47 else if c =? 98 then Some 8
  else if c =? 102 then Some 12 else if c =? 110 then Some 10
  else if c =? 114 then Some 13 else if c =? 116 then Some 9
  else None.

(** The text of a string after its opening quote, and what follows it. *)
Fixpoint scan_string (s : bytes) : option (pystr * bytes) :=
  match s with
  | [] => None
  | c :: s' =>
      if c =? 34 then Some ([], s')
      else if c =? 92 then
        match s' with
        | [] => None
        | x :: s'' =>
            match unescape x, scan_string s'' with
            | Some u, Some (t, rest) => Some (u :: t, rest)
            | _, _ => None
            end
        end
      else if (c <? 32) || (127 <? c) then None
      else
        match scan_string s' with
        | Some (t, rest) => Some (c :: t, rest)
        | None => None
        end
  end.

Fixpoint scan_digits (s : bytes) (acc : Z) : Z * bytes :=
  match s with
  | c :: s' => if is_digit c then scan_digits s' (10 * acc + (c - 48)) else (acc, s)
  | [] => (acc, [])
  end.

(** An integer literal (an optional minus sign, then 0 or a digit string
    without leading zero) of at most 4300 digits that is not continued as
    a float. *)
Definition scan_int (s : bytes) : option (value * bytes) :=
  let (neg, s1) := match s with
                   | c :: s' => if c =? 45 then (true, s') else (false, s)
                   | [] => (false, s)
                   end in
  match s1 with
  | c :: s' =>
      if is_digit c then
        let (n, rest) := if c =? 48 then (0, s') else scan_digits s1 0 in
        if 4300 <? len s1 - len rest then None
        else
          match rest with
          | d :: _ =>
              if (d =? 46) || (d =? 101) || (d =? 69) then None
              else Some (PyInt (if neg then - n else n), rest)
          | [] => Some (PyInt (if neg then - n else n), rest)
          end
      else None
  | [] => None
  end.

(** [d[k] = v] on an insertion-ordered dict. *)
Fixpoint dict_set (d : list (pystr * value)) (k : pystr) (v : value) :=
  match d with
  | [] => [(k, v)]
  | (k', v') :: d' =>
      if str_eqb k' k then (k', v) :: d' else (k', v') :: dict_set d' k v
  end.

Fixpoint value_at (fuel : nat) (s : bytes) : option (value * bytes) :=
  match fuel with
  | O => None
  | S f =>
      match s with
      | [] => None
      | c :: s' =>
          if c =? 34 then
            match scan_string s' with
            | Some (t, rest) => Some (PyStr t, rest)
            | None => None
            end
          else if c =? 123 then
            match skip_ws s' with
            | x :: rest => if x =? 125 then Some (PyDict [], rest)
                           else members_at f (x :: rest) []
            | [] => None
            end
          else if c =? 91 then
            match skip_ws s' with
            | x :: rest => if x =? 93 then Some (PyList [], rest)
                           else items_at f (x :: rest) []
            | [] => None
            end
          else
            match strip_prefix (lit "null") s, strip_prefix (lit "true") s,
                  strip_prefix (lit "false") s with
            | Some rest, _, _ => Some (PyNone, rest)
            | _, Some rest, _ => Some (PyBool true, rest)
            | _, _, Some rest => Some (PyBool false, rest)
            | _, _, _ => scan_int s
            end
      end
  end
with items_at (fuel : nat) (s : bytes) (acc : list value) : option (value * bytes) :=
  match fuel with
  | O => None
  | S f =>
      match value_at f s with
      | Some (v, rest) =>
          match skip_ws rest with
          | x :: rest' =>
              if x =? 44 then items_at f (skip_ws rest') (v :: acc)
              else if x =? 93 then Some (PyList (rev (v :: acc)), rest')
              else None
          | [] => None
          end
      | None => None
      end
  end
with members_at (fuel : nat) (s : bytes) (acc : list (pystr * value))
  : option (value * bytes) :=
  match fuel with
  | O => None
  | S f =>
      match s with
      | q :: s' =>
          if q =? 34 then
            match scan_string s' with
            | Some (k, rest) =>
                match skip_ws rest with
                | x :: rest' =>
                    if x =? 58 then
                      match value_at f (skip_ws rest') with
                      | Some (v, rest'') =>
                          match skip_ws rest'' with
                          | y :: tail =>
                              if y =? 44 then
                                members_at f (skip_ws tail) (dict_set acc k v)
                              else if y =? 125 then
                                Some (PyDict (dict_set acc k v), tail)
                              else None
                          | [] => None
                          end
                      | None => None
                      end
                    else None
                | [] => None
                end
            | None => None
            end
          else None
      | [] => None
      end
  end.

Definition loads (b : bytes) : result value :=
  match value_at (2 * length b + 2) (skip_ws b) with
  | Some (v, rest) =>
      match skip_ws rest with
      | [] => Ok v
      | _ :: _ => Raise JSONDecodeError
      end
  | None => Raise JSONDecodeError
  end.

(** *** repr and str *)

Fixpoint join (sep : pystr) (l : list pystr) : pystr :=
  match l with
  | [] => []
  | [x] => x
  | x :: l' => x ++ sep ++ join sep l'
  end.

(** [repr] of a string of printable ASCII without quote or backslash. *)
Definition repr_str (s : pystr) : pystr := lit "'" ++ s ++ lit "'".

(** [repr]; the sample reader produces no float, whose [repr] is left out. *)
Fixpoint repr_value (v : value) : pystr :=
  match v with
  | PyNone => lit "None"
  | PyBool true => lit "True"
  | PyBool false => lit "False"
  | PyInt n => decimal n
  | PyFloat _ => lit "nan"
  | PyStr s => repr_str s
  | PyList l => lit "[" ++ join (lit ", ") (map repr_value l) ++ lit "]"
  | PyDict d =>
      lit "{"
      ++ join (lit ", ")
           (map (fun kv => match kv with
                           | (k, x) => repr_str k ++ lit ": " ++ repr_value x
                           end) d)
      ++ lit "}"
  end.

Definition str_exn (e : exn) : pystr :=
  match e with
  | IndexError => lit "list index out of range"
  | KeyError k => repr_str k
  | TypeError => lit "object is not subscriptable"
  | ValueError => lit "string argument should contain only ASCII characters"
  | BinasciiError => lit "Incorrect padding"
  | JSONDecodeError => lit "Expecting value"
  | UnicodeDecodeError => lit "invalid start byte"
  | UnicodeEncodeError => lit "surrogates not allowed"
  | RecursionError => lit "maximum recursion depth exceeded"
  | OSError => lit "Broken pipe"
  end.

(** The log sink appends the message to the lines logged so far. *)
Definition logging : Runtime := {|
  World := list pystr;
  debug_log := fun msg w => (Ok tt, w ++ [msg]);
  urlsafe_b64decode := b64decode;
  json_loads := loads;
  repr := repr_value;
  int_max_str_digits := 4300;
  exn_str := str_exn |}.

(** The same runtime with a log sink that fails: every call raises
    [OSError] and leaves the log as it was. *)
Definition broken_sink : Runtime := {|
  World := list pystr;
  debug_log := fun _ w => (Raise OSError, w);
  urlsafe_b64decode := b64decode;
  json_loads := loads;
  repr := repr_value;
  int_max_str_digits := 4300;
  exn_str := str_exn |}.

End Demo.

(** ** More parts of the functions, and predicates to speak about them *)

(** The value of [i] at line 51, [r] being the decimal numeral that line
    50 returned: the text that is signed. *)
Definition zs_message (e t : pystr) (timestamp : Z) : pystr :=
  e ++ lit "|" ++ t ++ lit "|" ++ decimal timestamp.

(** The text between the request id and the user id at line 85. *)
Definition descriptor_middle (timestamp : Z) : pystr :=
  lit ",timestamp," ++ decimal timestamp ++ lit ",user_id,".

(** A string in which the character [c] does not occur. *)
Definition without (c : Z) (s : pystr) : Prop := Forall (fun x => x <> c) s.

(** The number of occurrences of [c] in [s]. *)
Definition count_char (c : Z) (s : pystr) : nat :=
  length (filter (Z.eqb c) s).

(** A code point that has a UTF-8 form: in the code space, not a surrogate. *)
Definition is_scalar (c : Z) : Prop :=
  0 <= c < 0xD800 \/ 0xDFFF < c < 0x110000.

(** The number of digits of the decimal numeral, the sign not counted. *)
Definition digit_count (n : Z) : Z :=
  len (decimal n) - (if n <? 0 then 1 else 0).


(** A log sink that returns normally whatever it is given. *)
Definition sink_returns `{Runtime} : Prop :=
  forall msg w, exists u w', debug_log msg w = (Ok u, w').

(** * Properties *)

(** ** The library model agrees with published test vectors *)

Example sha256_constants :
  length SHA256.K = 64%nat
  /\ nth 0 SHA256.K 0 = 0x428a2f98 /\ nth 63 SHA256.K 0 = 0xc67178f2
  /\ SHA256.ra SHA256.init = 0x6a09e667 /\ SHA256.rh SHA256.init = 0x5be0cd19.
Proof. repeat split; reflexivity. Qed.

Example sha256_abc :
  HMAC.hex (SHA256.digest (lit "abc"))
  = lit "ba7816bf8f01cfea414140de5dae2223b00361a396177a9cb410ff61f20015ad".
Proof. vm_compute. reflexivity. Qed.

Example sha256_empty :
  HMAC.hex (SHA256.digest [])
  = lit "e3b0c44298fc1c149afbf4c8996fb92427ae41e4649b934ca495991b7852b855".
Proof. vm_compute. reflexivity. Qed.

Example hmac_rfc4231_case2 :
  HMAC.hexdigest (lit "Jefe") (lit "what do ya want for nothing?")
  = lit "5bdcc146bf60754e6a042426089575c75a003f089d2739839dec58b964ec3843".
Proof. vm_compute. reflexivity. Qed.

Example decimal_examples :
  decimal 0 = lit "0" /\ decimal 1700000000000 = lit "1700000000000"
  /\ decimal (-12) = lit "-12".
Proof. repeat split; reflexivity. Qed.

Example str_split_examples :
  str_split 46 (lit "") = [lit ""]
  /\ str_split 46 (lit "a.b") = [lit "a"; lit "b"]
  /\ str_split 46 (lit "h.p.s.") = [lit "h"; lit "p"; lit "s"; lit ""].
Proof. repeat split; reflexivity. Qed.

Example b64decode_examples :
  Demo.b64decode (lit "eyJpZCI6ICJ1MTIzIn0=")
  = Ok [123; 34; 105; 100; 34; 58; 32; 34; 117; 49; 50; 51; 34; 125]
  /\ Demo.b64decode (lit "a-_b") = Ok [107; 239; 219]
  /\ Demo.b64decode (lit "ab=c") = Raise BinasciiError
  /\ Demo.b64decode (lit "abcde") = Raise BinasciiError.
Proof. repeat split; reflexivity. Qed.

(** ** Digests: thirty-two octets, sixty-four lowercase hexadecimal digits *)

Lemma word_bytes_range w : Forall Spec.is_byte (SHA256.word_bytes w).
Proof.
  unfold SHA256.word_bytes, Spec.is_byte.
  repeat constructor; apply Z.mod_pos_bound; lia.
Qed.

Lemma sha256_digest_length m : length (SHA256.digest m) = 32%nat.
Proof.
  unfold SHA256.digest, SHA256.state_bytes.
  rewrite !length_app. reflexivity.
Qed.

Lemma sha256_digest_range m : Forall Spec.is_byte (SHA256.digest m).
Proof.
  unfold SHA256.digest, SHA256.state_bytes.
  repeat (apply Forall_app; split); apply word_bytes_range.
Qed.

Lemma hex_length bs : length (HMAC.hex bs) = (2 * length bs)%nat.
Proof.
  induction bs as [|b bs IH]; simpl; [reflexivity | rewrite IH; lia].
Qed.

Lemma hexchar_lower k :
  0 <= k < 16 ->
  Spec.lower_hex_char (nth (Z.to_nat k) HMAC.hexchars 63) = true.
Proof.
  intros Hk.
  assert (Hn : (Z.to_nat k < 16)%nat) by lia.
  revert Hn. generalize (Z.to_nat k) as n. intros n Hn.
  do 16 (destruct n as [|n]; [reflexivity|]).
  lia.
Qed.

Lemma hex_lower bs :
  Forall Spec.is_byte bs -> forallb Spec.lower_hex_char (HMAC.hex bs) = true.
Proof.
  induction 1 as [|b bs Hb _ IH]; [reflexivity|].
  unfold Spec.is_byte in Hb.
  change (HMAC.hex (b :: bs)) with (HMAC.hex_byte b ++ HMAC.hex bs).
  rewrite forallb_app, IH, andb_true_r.
  unfold HMAC.hex_byte. cbn [forallb].
  rewrite !hexchar_lower; [reflexivity | | ].
  - apply Z.mod_pos_bound; lia.
  - split; [apply Z.div_pos; lia | apply Z.div_lt_upper_bound; lia].
Qed.

Lemma hexdigest_hex64 key msg : Spec.hex64 (HMAC.hexdigest key msg).
Proof.
  unfold Spec.hex64, HMAC.hexdigest, HMAC.digest. split.
  - rewrite hex_length, sha256_digest_length. reflexivity.
  - apply hex_lower, sha256_digest_range.
Qed.

Lemma lower_hex_is_ascii c : Spec.lower_hex_char c = true -> Spec.is_ascii c.
Proof. unfold Spec.lower_hex_char, Spec.is_ascii. lia. Qed.

Lemma hex64_ascii s : Spec.hex64 s -> Forall Spec.is_ascii s.
Proof.
  intros [_ H]. rewrite forallb_forall in H.
  apply Forall_forall. intros c Hc. apply lower_hex_is_ascii, H, Hc.
Qed.

(** ** UTF-8 *)

Lemma encode_utf8_ascii s : Forall Spec.is_ascii s -> encode_utf8 s = Ok s.
Proof.
  induction 1 as [|c s Hc _ IH]; [reflexivity|].
  unfold Spec.is_ascii in Hc. cbn [encode_utf8]. rewrite IH.
  unfold utf8_char.
  destruct (Z.ltb_spec c 0); [lia|].
  destruct (Z.ltb_spec c 0x80); [reflexivity | lia].
Qed.

Lemma encode_utf8_app a b :
  encode_utf8 (a ++ b)
  = let? x := encode_utf8 a in let? y := encode_utf8 b in Ok (x ++ y).
Proof.
  induction a as [|c a IH]; cbn [encode_utf8 app].
  - destruct (encode_utf8 b); reflexivity.
  - rewrite IH. destruct (utf8_char c); cbn; [|reflexivity].
    destruct (encode_utf8 a); cbn; [|reflexivity].
    destruct (encode_utf8 b); cbn; [|reflexivity].
    rewrite app_assoc. reflexivity.
Qed.

Lemma encodable_app a b :
  Spec.encodable a -> Spec.encodable b -> Spec.encodable (a ++ b).
Proof.
  intros [x Hx] [y Hy]. exists (x ++ y).
  unfold Spec.utf8_of in *. rewrite encode_utf8_app, Hx, Hy. reflexivity.
Qed.

Lemma encodable_ascii s : Forall Spec.is_ascii s -> Spec.encodable s.
Proof. intros H. exists s. apply encode_utf8_ascii, H. Qed.

(** A lone surrogate has no UTF-8 form: [encode] raises on it. *)
Example encode_utf8_surrogate :
  encode_utf8 (lit "a" ++ [0xD800]) = Raise UnicodeEncodeError.
Proof. reflexivity. Qed.

(** ** The decimal numeral of an integer *)

Lemma lit_app a b : lit (a ++ b) = lit a ++ lit b.
Proof.
  unfold lit. induction a as [|c a IH]; cbn; [reflexivity|].
  f_equal. exact IH.
Qed.

Lemma lit_inj a b : lit a = lit b -> a = b.
Proof.
  unfold lit. revert b.
  induction a as [|c a IH]; intros [|d b]; cbn; try discriminate; [reflexivity|].
  intros [= Hc Hs]. apply N2Z.inj in Hc.
  rewrite <- (ascii_N_embedding c), <- (ascii_N_embedding d), Hc.
  f_equal. apply IH, Hs.
Qed.

Lemma lit_cons c s : lit (String c s) = Z.of_N (N_of_ascii c) :: lit s.
Proof. reflexivity. Qed.

Lemma uint_digits d : Forall Spec.decimal_digit (lit (NilEmpty.string_of_uint d)).
Proof.
  unfold Spec.decimal_digit.
  induction d; cbn; constructor; solve [lia | assumption].
Qed.

(** Reading the digits back, most significant first, with an accumulator. *)
Lemma digits_value_acc d acc :
  fold_left (fun a c => 10 * a + (c - 48))
            (lit (NilEmpty.string_of_uint d)) (Zpos acc)
  = Zpos (Pos.of_uint_acc d acc).
Proof.
  revert acc.
  induction d; intros acc; cbn [NilEmpty.string_of_uint Pos.of_uint_acc];
    [ reflexivity
    | rewrite lit_cons; cbn [fold_left]; rewrite <- IHd; f_equal;
      simpl (Z.of_N _); lia .. ].
Qed.

Lemma digits_value d :
  Spec.decimal_value (lit (NilEmpty.string_of_uint d)) = Z.of_N (Pos.of_uint d).
Proof.
  unfold Spec.decimal_value.
  induction d; cbn [NilEmpty.string_of_uint Pos.of_uint];
    [ reflexivity
    | rewrite lit_cons; cbn [fold_left]; simpl (Z.of_N (N_of_ascii _)) .. ];
    [ exact IHd | apply (digits_value_acc d) .. ].
Qed.

Lemma to_uint_digits p :
  let ds := lit (NilZero.string_of_uint (Pos.to_uint p)) in
  ds <> [] /\ Forall Spec.decimal_digit ds /\ Spec.decimal_value ds = Zpos p.
Proof.
  pose proof (DecimalPos.Unsigned.to_uint_nonnil p) as Hnil.
  pose proof (DecimalPos.Unsigned.of_to p) as Hof.
  destruct (Pos.to_uint p) eqn:E; try congruence;
    cbn [NilZero.string_of_uint]; rewrite digits_value, Hof;
    (split; [discriminate | split; [apply (uint_digits (_ u)) | reflexivity]]).
Qed.

Lemma decimal_plain n : Spec.plain_decimal n (decimal n).
Proof.
  unfold Spec.plain_decimal, decimal.
  destruct n as [|p|p]; cbn [Z.to_int Z.ltb Z.compare Z.abs].
  - exists (lit "0"). repeat split; [discriminate|].
    constructor; [unfold Spec.decimal_digit; cbn; lia | constructor].
  - exists (lit (NilZero.string_of_uint (Pos.to_uint p))).
    split; [reflexivity | apply to_uint_digits].
  - exists (lit (NilZero.string_of_uint (Pos.to_uint p))).
    split; [reflexivity | apply to_uint_digits].
Qed.

Lemma decimal_ascii n : Forall Spec.is_ascii (decimal n).
Proof.
  destruct (decimal_plain n) as (ds & -> & _ & Hd & _).
  apply Forall_app. split.
  - destruct (n <? 0); repeat constructor; unfold Spec.is_ascii; cbn; lia.
  - eapply Forall_impl; [|exact Hd].
    unfold Spec.decimal_digit, Spec.is_ascii. intros; lia.
Qed.

Lemma to_int_not_nil n : Z.to_int n <> Decimal.Pos Decimal.Nil
                         /\ Z.to_int n <> Decimal.Neg Decimal.Nil.
Proof.
  destruct n as [|p|p]; cbn; split; try discriminate;
    intros [= H]; exact (DecimalPos.Unsigned.to_uint_nonnil p H).
Qed.

(** Distinct integers have distinct decimal strings. *)
Lemma decimal_inj a b : decimal a = decimal b -> a = b.
Proof.
  unfold decimal. intros H. apply lit_inj in H.
  apply (f_equal NilZero.int_of_string) in H.
  destruct (to_int_not_nil a) as [Ha1 Ha2], (to_int_not_nil b) as [Hb1 Hb2].
  rewrite !NilZero.isi in H by assumption.
  injection H as H. apply DecimalZ.to_int_inj, H.
Qed.

Lemma encode_decimal n : encode_utf8 (decimal n) = Ok (decimal n).
Proof. apply encode_utf8_ascii, decimal_ascii. Qed.


(** ** How many digits a numeral has *)

(** The number of digits of the numeral, the sign not counted. *)
Lemma uint_value_acc d acc :
  let k := len (lit (NilEmpty.string_of_uint d)) in
  Zpos acc * 10 ^ k <= Zpos (Pos.of_uint_acc d acc) < (Zpos acc + 1) * 10 ^ k.
Proof.
  cbv zeta. revert acc. unfold len.
  induction d; intros acc; cbn [NilEmpty.string_of_uint Pos.of_uint_acc];
    [ cbn; lia
    | rewrite lit_cons; cbn [length]; rewrite Nat2Z.inj_succ, Z.pow_succ_r by lia;
      match goal with
      | |- context [Pos.of_uint_acc d ?a] => specialize (IHd a)
      end;
      pose proof (Z.pow_pos_nonneg 10
                    (Z.of_nat (length (lit (NilEmpty.string_of_uint d))))
                    ltac:(lia) ltac:(lia));
      nia .. ].
Qed.

Lemma to_uint_no_leading_zero p l : Pos.to_uint p <> Decimal.D0 l.
Proof.
  intros E.
  pose proof (DecimalPos.Unsigned.to_of (Pos.to_uint p)) as H.
  rewrite DecimalPos.Unsigned.of_to in H. cbn [N.to_uint] in H.
  rewrite E in H. unfold Decimal.unorm in H. cbn [Decimal.nzhead] in H.
  destruct (Decimal.nzhead l) eqn:En;
    try (exact (DecimalFacts.nzhead_nonzero l l (eq_trans En (eq_sym H)))).
  injection H as H. subst l.
  exact (DecimalPos.Unsigned.to_uint_nonzero p E).
Qed.

(** A positive number lies between the powers of ten that its digit count
    gives. *)
Lemma to_uint_bounds p :
  let k := len (lit (NilZero.string_of_uint (Pos.to_uint p))) in
  10 ^ (k - 1) <= Zpos p < 10 ^ k.
Proof.
  cbv zeta.
  pose proof (DecimalPos.Unsigned.to_uint_nonnil p) as Hnil.
  pose proof (to_uint_no_leading_zero p) as Hz.
  pose proof (DecimalPos.Unsigned.of_to p) as Hof.
  destruct (Pos.to_uint p) as [|u|u|u|u|u|u|u|u|u|u] eqn:E;
    [ congruence | exfalso; exact (Hz u eq_refl) | .. ];
    cbn [NilZero.string_of_uint NilEmpty.string_of_uint];
    rewrite lit_cons; unfold len; cbn [length];
    rewrite Nat2Z.inj_succ;
    replace (Z.succ (Z.of_nat (length (lit (NilEmpty.string_of_uint u)))) - 1)
      with (Z.of_nat (length (lit (NilEmpty.string_of_uint u)))) by lia;
    rewrite Z.pow_succ_r by lia;
    cbn [Pos.of_uint] in Hof; injection Hof as Hof; rewrite <- Hof;
    match goal with
    | |- context [Pos.of_uint_acc u ?a] =>
        pose proof (uint_value_acc u a) as Hb
    end;
    cbv zeta in Hb; unfold len in Hb;
    pose proof (Z.pow_pos_nonneg 10
                  (Z.of_nat (length (lit (NilEmpty.string_of_uint u))))
                  ltac:(lia) ltac:(lia));
    nia.
Qed.

Lemma digit_count_zero : digit_count 0 = 1.
Proof. reflexivity. Qed.

Lemma digit_count_bounds n :
  n <> 0 -> 10 ^ (digit_count n - 1) <= Z.abs n < 10 ^ digit_count n.
Proof.
  unfold digit_count, decimal. intros Hn.
  destruct n as [|p|p]; [contradiction | |];
    cbn [Z.to_int Z.ltb Z.compare Z.abs NilZero.string_of_int].
  - rewrite Z.sub_0_r. apply to_uint_bounds.
  - rewrite lit_cons. unfold len. cbn [length]. rewrite Nat2Z.inj_succ.
    replace (Z.succ (Z.of_nat (length (lit (NilZero.string_of_uint (Pos.to_uint p))))) - 1)
      with (len (lit (NilZero.string_of_uint (Pos.to_uint p))))
      by (unfold len; lia).
    apply to_uint_bounds.
Qed.

Lemma digit_count_pos n : 1 <= digit_count n.
Proof.
  destruct (Z.eq_dec n 0) as [->|Hn]; [rewrite digit_count_zero; lia|].
  destruct (digit_count_bounds n Hn) as [_ Hu].
  destruct (Z_lt_le_dec (digit_count n) 1) as [Hlt|]; [|assumption].
  exfalso.
  assert (10 ^ digit_count n <= 1).
  { destruct (Z_lt_le_dec (digit_count n) 0) as [Hneg|Hnn].
    - rewrite Z.pow_neg_r by assumption. lia.
    - replace (digit_count n) with 0 by lia. cbn. lia. }
  lia.
Qed.

(** More digits than [k] means at least [10 ^ k] in absolute value. *)
Lemma digit_count_gt n k :
  1 <= k -> (k < digit_count n <-> 10 ^ k <= Z.abs n).
Proof.
  intros Hk.
  destruct (Z.eq_dec n 0) as [->|Hn].
  - rewrite digit_count_zero. cbn [Z.abs].
    pose proof (Z.pow_pos_nonneg 10 k ltac:(lia) ltac:(lia)). lia.
  - destruct (digit_count_bounds n Hn) as [Hl Hu].
    pose proof (digit_count_pos n) as Hp. split; intros H.
    + apply Z.le_trans with (10 ^ (digit_count n - 1)); [|exact Hl].
      apply Z.pow_le_mono_r; lia.
    + destruct (Z_lt_le_dec k (digit_count n)) as [|Hle]; [assumption|].
      exfalso.
      assert (10 ^ digit_count n <= 10 ^ k) by (apply Z.pow_le_mono_r; lia).
      lia.
Qed.

Lemma digit_count_mono a b :
  Z.abs a <= Z.abs b -> digit_count a <= digit_count b.
Proof.
  intros H. pose proof (digit_count_pos a) as Ha.
  destruct (Z_le_gt_dec (digit_count a) (digit_count b)) as [|Hgt]; [assumption|].
  exfalso.
  pose proof (digit_count_pos b) as Hb.
  apply Z.gt_lt in Hgt.
  apply (digit_count_gt a (digit_count b) Hb) in Hgt.
  destruct (Z.eq_dec b 0) as [->|Hnb].
  - rewrite digit_count_zero in Hgt. cbn in *. lia.
  - destruct (digit_count_bounds b Hnb) as [_ Hu]. lia.
Qed.

Lemma len_decimal n :
  len (decimal n) = digit_count n + (if n <? 0 then 1 else 0).
Proof. unfold digit_count. lia. Qed.

(** ** [str] of an integer *)

Section StrInt.

Context `{RT : Runtime}.

Lemma str_int_unfold n :
  str_int n =
  if (640 <? len (decimal n)) && (0 <? int_max_str_digits)
     && (int_max_str_digits <? digit_count n)
  then Raise ValueError
  else Ok (decimal n).
Proof. reflexivity. Qed.

(** It returns the numeral or raises [ValueError]. *)
Lemma str_int_cases n :
  str_int n = Ok (decimal n) \/ str_int n = Raise ValueError.
Proof.
  rewrite str_int_unfold. destruct (_ && _); [right | left]; reflexivity.
Qed.

Lemma str_int_ok n r : str_int n = Ok r -> r = decimal n.
Proof.
  destruct (str_int_cases n) as [H|H]; rewrite H; congruence.
Qed.

Lemma str_int_raise n x : str_int n = Raise x -> x = ValueError.
Proof.
  destruct (str_int_cases n) as [H|H]; rewrite H; congruence.
Qed.

(** When it raises, in terms of the number: the limit is on, and the
    number has more than 640 characters and more digits than the limit. *)
Lemma str_int_raises_iff n :
  str_int n = Raise ValueError <->
  0 < int_max_str_digits
  /\ 640 < len (decimal n)
  /\ int_max_str_digits < digit_count n.
Proof.
  rewrite str_int_unfold.
  destruct (Z.ltb_spec 640 (len (decimal n))),
           (Z.ltb_spec 0 int_max_str_digits),
           (Z.ltb_spec int_max_str_digits (digit_count n));
    cbn [andb]; split; intros Hyp; try discriminate; try lia;
    try reflexivity.
Qed.

(** With a limit as CPython admits it (at least 640), [str] raises exactly
    on the numbers of at least [10 ^ limit] in absolute value. *)
Lemma str_int_limit n :
  640 <= int_max_str_digits ->
  (str_int n = Raise ValueError <-> 10 ^ int_max_str_digits <= Z.abs n).
Proof.
  intros Hm. rewrite str_int_raises_iff.
  rewrite <- (digit_count_gt n int_max_str_digits) by lia.
  rewrite len_decimal. destruct (n <? 0); lia.
Qed.


(** A number converts if one of the same sign and no smaller size does. *)
Lemma str_int_smaller a b r :
  str_int b = Ok r -> Z.abs a <= Z.abs b -> (a <? 0) = (b <? 0) ->
  str_int a = Ok (decimal a).
Proof.
  intros Hb Hab Hs. destruct (str_int_cases a) as [E|E]; [exact E|].
  exfalso. apply str_int_raises_iff in E. destruct E as (Hm & Hl & Hd).
  assert (Eb : str_int b = Raise ValueError).
  { apply str_int_raises_iff.
    pose proof (digit_count_mono a b Hab) as Hmono.
    rewrite len_decimal in *. rewrite <- Hs.
    destruct (a <? 0); lia. }
  congruence.
Qed.

(** The window index converts whenever the timestamp does. *)
Lemma str_int_window timestamp r :
  str_int timestamp = Ok r ->
  str_int (timestamp / (5 * 60 * 1000))
  = Ok (decimal (timestamp / (5 * 60 * 1000))).
Proof.
  intros H. change (5 * 60 * 1000) with 300000.
  apply (str_int_smaller _ timestamp r H).
  - destruct (Z_lt_le_dec timestamp 0) as [Hneg|Hpos].
    + assert (timestamp <= timestamp / 300000)
        by (apply Z.div_le_lower_bound; lia).
      assert (timestamp / 300000 < 0)
        by (apply Z.div_lt_upper_bound; lia).
      lia.
    + assert (0 <= timestamp / 300000) by (apply Z.div_pos; lia).
      assert (timestamp / 300000 <= timestamp)
        by (apply Z.div_le_upper_bound; lia).
      lia.
  - destruct (Z_lt_le_dec timestamp 0) as [Hneg|Hpos].
    + assert (timestamp / 300000 < 0)
        by (apply Z.div_lt_upper_bound; lia).
      destruct (Z.ltb_spec (timestamp / 300000) 0),
               (Z.ltb_spec timestamp 0); lia || reflexivity.
    + assert (0 <= timestamp / 300000) by (apply Z.div_pos; lia).
      destruct (Z.ltb_spec (timestamp / 300000) 0),
               (Z.ltb_spec timestamp 0); lia || reflexivity.
Qed.

End StrInt.

(** Numerals of at most 640 characters are converted under every setting. *)
Lemma str_int_short `{RT : Runtime} n :
  len (decimal n) <= 640 -> str_int n = Ok (decimal n).
Proof.
  intros H. rewrite str_int_unfold.
  destruct (Z.ltb_spec 640 (len (decimal n))); [lia | reflexivity].
Qed.

Lemma pow10_pos k : 0 <= k -> 0 < 10 ^ k.
Proof. intros H. apply Z.pow_pos_nonneg; lia. Qed.

(** The limit of CPython 3.11 at its default: 4300 digits convert, 4301
    do not, with either sign and also inside an f-string. *)
Example str_int_default_limit :
  @str_int Demo.logging (10 ^ 4300 - 1) = Ok (decimal (10 ^ 4300 - 1))
  /\ @str_int Demo.logging (10 ^ 4300) = Raise ValueError
  /\ @str_int Demo.logging (- (10 ^ 4300 - 1)) = Ok (decimal (- (10 ^ 4300 - 1)))
  /\ @str_int Demo.logging (- 10 ^ 4300) = Raise ValueError
  /\ @str_int Demo.logging 1700000000000 = Ok (lit "1700000000000").
Proof.
  assert (Hm : 640 <= @int_max_str_digits Demo.logging) by (cbn; lia).
  pose proof (@str_int_cases Demo.logging) as Hc.
  pose proof (@str_int_limit Demo.logging) as Hl.
  change (@int_max_str_digits Demo.logging) with 4300 in Hl.
  pose proof (pow10_pos 4300 ltac:(lia)) as Hp.
  revert Hc Hl Hp. generalize (10 ^ 4300). intros p Hc Hl Hp.
  split; [|split; [|split; [|split]]].
  - destruct (Hc (p - 1)) as [E|E]; [exact E|].
    apply (Hl _ Hm) in E. lia.
  - apply (Hl _ Hm). lia.
  - destruct (Hc (- (p - 1))) as [E|E]; [exact E|].
    apply (Hl _ Hm) in E. lia.
  - apply (Hl _ Hm). lia.
  - apply str_int_short. vm_compute. discriminate.
Qed.

(** A timestamp of 4301 digits. *)
Lemma str_int_demo_long : @str_int Demo.logging (10 ^ 4300) = Raise ValueError.
Proof.
  apply (@str_int_limit Demo.logging); [cbn; lia|].
  change (@int_max_str_digits Demo.logging) with 4300.
  pose proof (pow10_pos 4300 ltac:(lia)) as Hp.
  revert Hp. generalize (10 ^ 4300). intros p Hp. lia.
Qed.

(** ** The core signer *)

Lemma encode_secret : encode_utf8 (lit "junjie") = Ok (lit "junjie").
Proof. reflexivity. Qed.

Lemma encode_hexdigest key msg :
  encode_utf8 (HMAC.hexdigest key msg) = Ok (HMAC.hexdigest key msg).
Proof. apply encode_utf8_ascii, hex64_ascii, hexdigest_hex64. Qed.

Section CoreSigner.

Context `{RT : Runtime}.

(** The derived key in terms of [str] of the window index: the encodings
    of the secret and of a numeral never fail. *)
Lemma zs_o_value timestamp :
  zs_o timestamp =
  let? m := str_int (timestamp / (5 * 60 * 1000)) in
  Ok (HMAC.hexdigest (lit "junjie") m).
Proof.
  unfold zs_o. cbv zeta. rewrite encode_secret. cbn [bind_result].
  destruct (str_int (timestamp / (5 * 60 * 1000))) as [m|x] eqn:E;
    cbn [bind_result]; [|reflexivity].
  rewrite (str_int_ok _ _ E), encode_decimal. reflexivity.
Qed.

Lemma zs_o_converted timestamp r :
  str_int timestamp = Ok r ->
  zs_o timestamp
  = Ok (HMAC.hexdigest (lit "junjie") (decimal (timestamp / (5 * 60 * 1000)))).
Proof.
  intros H. rewrite zs_o_value, (str_int_window _ _ H). reflexivity.
Qed.

(** [zs] in terms of the derived key: after [str(timestamp)] has
    returned, the only step that can raise is the encoding of the
    message [i]. *)
Lemma zs_unfold e t timestamp :
  zs e t timestamp =
  let? r := str_int timestamp in
  let? o := zs_o timestamp in
  let? o_bytes := encode_utf8 o in
  let? i_bytes := encode_utf8 (e ++ lit "|" ++ t ++ lit "|" ++ r) in
  Ok (signature_result (HMAC.hexdigest o_bytes i_bytes) timestamp).
Proof.
  unfold zs, zs_o, signature_result. cbv zeta.
  destruct (str_int timestamp) as [r|x]; cbn [bind_result]; [|reflexivity].
  rewrite encode_secret. cbn [bind_result].
  destruct (str_int (timestamp / (5 * 60 * 1000))) as [m|y];
    cbn [bind_result]; [|reflexivity].
  destruct (encode_utf8 m) as [mb|z]; cbn [bind_result]; reflexivity.
Qed.

Lemma zs_value e t timestamp :
  zs e t timestamp =
  let? r := str_int timestamp in
  let o := HMAC.hexdigest (lit "junjie") (decimal (timestamp / (5 * 60 * 1000))) in
  let? i_bytes := encode_utf8 (e ++ lit "|" ++ t ++ lit "|" ++ r) in
  Ok (signature_result (HMAC.hexdigest o i_bytes) timestamp).
Proof.
  rewrite zs_unfold.
  destruct (str_int timestamp) as [r|x] eqn:E; cbn [bind_result]; [|reflexivity].
  rewrite (zs_o_converted _ _ E). cbn [bind_result].
  rewrite encode_hexdigest. reflexivity.
Qed.

(** Where [str(timestamp)] raises, so does the signer, before anything
    else is looked at. *)
Lemma zs_str_raises e t timestamp :
  str_int timestamp = Raise ValueError -> zs e t timestamp = Raise ValueError.
Proof. intros H. rewrite zs_value, H. reflexivity. Qed.

(** C1.  Whenever [str(timestamp)] returns [r] and the message
    [e + "|" + t + "|" + r] has UTF-8 bytes, [zs] returns the dict whose
    signature is the hex digest of HMAC-SHA256 keyed with the UTF-8 bytes
    of [o] over those bytes, [o] being the hex digest of HMAC-SHA256 keyed
    with the bytes of "junjie" over the bytes of
    [str(timestamp // (5 * 60 * 1000))]. *)
Theorem zs_computes_final_signature (e t : pystr) (timestamp : Z) (r : pystr) :
  str_int timestamp = Ok r ->
  Spec.encodable (e ++ lit "|" ++ t ++ lit "|" ++ r) ->
  exists sig,
    zs e t timestamp = Ok (signature_result sig timestamp)
    /\ Spec.final_signature e t timestamp sig.
Proof.
  intros Hr [i_bytes Hi]. unfold Spec.utf8_of in Hi.
  rewrite zs_value, Hr. cbn [bind_result]. cbv zeta. rewrite Hi.
  cbn [bind_result].
  eexists. split; [reflexivity|].
  exists (lit "junjie"), (decimal (timestamp / (5 * 60 * 1000))),
         (HMAC.hexdigest (lit "junjie") (decimal (timestamp / (5 * 60 * 1000)))),
         i_bytes.
  cbv zeta. unfold Spec.utf8_of. rewrite <- (str_int_ok _ _ Hr).
  repeat split; auto using encode_secret, encode_decimal, encode_hexdigest.
Qed.

Lemma zs_shape e t timestamp v :
  zs e t timestamp = Ok v ->
  exists sig, v = signature_result sig timestamp /\ Spec.hex64 sig.
Proof.
  rewrite zs_value.
  destruct (str_int timestamp) as [r|x]; cbn [bind_result]; [|discriminate].
  cbv zeta.
  destruct (encode_utf8 _) as [i_bytes|x]; cbn [bind_result]; [|discriminate].
  intros [= <-]. eexists. split; [reflexivity | apply hexdigest_hex64].
Qed.

Lemma zs_returns e t timestamp r :
  str_int timestamp = Ok r ->
  Spec.encodable e -> Spec.encodable t ->
  exists sig,
    zs e t timestamp = Ok (signature_result sig timestamp) /\ Spec.hex64 sig.
Proof.
  intros Hr He Ht.
  assert (Hi : Spec.encodable (e ++ lit "|" ++ t ++ lit "|" ++ r)).
  { rewrite (str_int_ok _ _ Hr).
    repeat apply encodable_app; trivial;
      try (apply encodable_ascii, decimal_ascii);
      exists (lit "|"); reflexivity. }
  destruct Hi as [i_bytes Hi]. unfold Spec.utf8_of in Hi.
  rewrite zs_value, Hr. cbn [bind_result]. cbv zeta. rewrite Hi.
  cbn [bind_result].
  eexists. split; [reflexivity | apply hexdigest_hex64].
Qed.

(** The only exceptions of the signer. *)
Lemma zs_raises e t timestamp x :
  zs e t timestamp = Raise x -> x = ValueError \/ x = UnicodeEncodeError.
Proof.
  rewrite zs_value.
  destruct (str_int timestamp) as [r|y] eqn:E; cbn [bind_result].
  - cbv zeta. destruct (encode_utf8 _) as [i_bytes|y] eqn:Ei;
      cbn [bind_result]; [discriminate|].
    intros [= <-]. right.
    revert y Ei. generalize (e ++ lit "|" ++ t ++ lit "|" ++ r).
    induction l as [|c l IH]; cbn [encode_utf8]; intros y; [discriminate|].
    destruct (utf8_char c) as [bc|xc] eqn:Ec; cbn [bind_result].
    + destruct (encode_utf8 l) as [bl|xl]; cbn [bind_result]; [discriminate|].
      intros [= <-]. apply (IH xl eq_refl).
    + intros [= <-]. unfold utf8_char in Ec.
      repeat match type of Ec with
             | (if ?c then _ else _) = _ => destruct c
             end; congruence.
  - intros [= <-]. left. apply (str_int_raise _ _ E).
Qed.

End CoreSigner.

(** The specification determines the signature: two strings that both are
    the final signature of the same inputs are equal. *)
Lemma final_signature_unique e t timestamp s1 s2 :
  Spec.final_signature e t timestamp s1 ->
  Spec.final_signature e t timestamp s2 -> s1 = s2.
Proof.
  unfold Spec.final_signature, Spec.utf8_of. cbv zeta.
  intros (k1 & n1 & o1 & i1 & Hk1 & Hn1 & Ho1 & Hi1 & ->)
         (k2 & n2 & o2 & i2 & Hk2 & Hn2 & Ho2 & Hi2 & ->).
  assert (k1 = k2) by congruence. subst k2.
  assert (n1 = n2) by congruence. subst n2.
  assert (o1 = o2) by congruence. subst o2.
  assert (i1 = i2) by congruence. subst i2.
  reflexivity.
Qed.

(** On a string with a lone surrogate the signer raises instead, and on a
    timestamp of 4301 digits it raises at once. *)
Example zs_lone_surrogate :
  @zs Demo.logging [0xD800] (lit "hello") 1700000000000
  = Raise UnicodeEncodeError.
Proof.
  rewrite zs_value.
  rewrite (@str_int_short Demo.logging) by (vm_compute; discriminate).
  reflexivity.
Qed.

Example zs_long_timestamp :
  @zs Demo.logging (lit "d") (lit "hello") (10 ^ 4300) = Raise ValueError.
Proof. apply zs_str_raises, str_int_demo_long. Qed.

Lemma zs_computes_final_signature_witness :
  @str_int Demo.logging 1700000000000 = Ok (lit "1700000000000")
  /\ Spec.encodable (lit "d" ++ lit "|" ++ lit "hello" ++ lit "|"
                     ++ lit "1700000000000")
  /\ exists sig,
       @zs Demo.logging (lit "d") (lit "hello") 1700000000000
       = Ok (signature_result sig 1700000000000)
       /\ Spec.final_signature (lit "d") (lit "hello") 1700000000000 sig.
Proof.
  assert (Hr : @str_int Demo.logging 1700000000000 = Ok (lit "1700000000000"))
    by (apply (@str_int_short Demo.logging); vm_compute; discriminate).
  assert (H : Spec.encodable
                (lit "d" ++ lit "|" ++ lit "hello" ++ lit "|"
                 ++ lit "1700000000000")).
  { eexists. unfold Spec.utf8_of. vm_compute. reflexivity. }
  split; [exact Hr|]. split; [exact H|].
  exact (@zs_computes_final_signature Demo.logging
           (lit "d") (lit "hello") 1700000000000 _ Hr H).
Defined.

(** ** The entry point *)

Section EntryPoint.

Context `{RT : Runtime}.

(** The function is the derivation of the user id followed by the f-string
    of line 85 and the call of the signer on it. *)
Lemma generate_unfold token request_id timestamp user_content w :
  generate_zs_signature token request_id timestamp user_content w =
  match derive_user_id token w with
  | (Ok user_id, w') =>
      ((let? ts := str_int timestamp in
        let? uid := format_value user_id in
        zs (lit "requestId," ++ request_id ++ lit ",timestamp,"
            ++ ts ++ lit ",user_id," ++ uid)
           user_content timestamp), w')
  | (Raise x, w') => (Raise x, w')
  end.
Proof. reflexivity. Qed.

(** The same with the value of [e] named. *)
Lemma generate_descriptor token request_id timestamp user_content w :
  generate_zs_signature token request_id timestamp user_content w =
  match derive_user_id token w with
  | (Ok user_id, w') =>
      ((let? e := descriptor request_id timestamp user_id in
        zs e user_content timestamp), w')
  | (Raise x, w') => (Raise x, w')
  end.
Proof.
  rewrite generate_unfold. unfold descriptor.
  destruct (derive_user_id token w) as [[uid|x] w']; [|reflexivity].
  destruct (str_int timestamp); cbn [bind_result]; [|reflexivity].
  destruct (format_value uid); reflexivity.
Qed.

Lemma derive_user_id_ok token v w :
  extract_user_id token = Ok v -> derive_user_id token w = (Ok v, w).
Proof.
  intros H. unfold derive_user_id, try_except, lift. rewrite H. reflexivity.
Qed.

Lemma derive_user_id_fallback token x w :
  extract_user_id token = Raise x ->
  derive_user_id token w =
  match debug_log (log_prefix ++ exn_str x) w with
  | (Ok _, w') => (Ok (PyStr (lit "guest-user")), w')
  | (Raise y, w') => (Raise y, w')
  end.
Proof.
  intros H. unfold derive_user_id, try_except, lift, bind, ret. rewrite H.
  destruct (debug_log _ w) as [[[]|y] w']; reflexivity.
Qed.

(** The path through the [except] clause. *)
Lemma generate_fallback token request_id timestamp user_content w x :
  extract_user_id token = Raise x ->
  generate_zs_signature token request_id timestamp user_content w =
  match debug_log (log_prefix ++ exn_str x) w with
  | (Ok _, w') =>
      ((let? ts := str_int timestamp in
        zs (lit "requestId," ++ request_id ++ lit ",timestamp,"
            ++ ts ++ lit ",user_id," ++ lit "guest-user")
           user_content timestamp), w')
  | (Raise y, w') => (Raise y, w')
  end.
Proof.
  intros H. rewrite generate_unfold, (derive_user_id_fallback _ _ _ H).
  destruct (debug_log _ w) as [[u|y] w']; [|reflexivity].
  destruct (str_int timestamp); reflexivity.
Qed.

(** The path without exception. *)
Lemma generate_with_id token request_id timestamp user_content w v :
  extract_user_id token = Ok v ->
  generate_zs_signature token request_id timestamp user_content w =
  ((let? ts := str_int timestamp in
    let? uid := format_value v in
    zs (lit "requestId," ++ request_id ++ lit ",timestamp,"
        ++ ts ++ lit ",user_id," ++ uid)
       user_content timestamp), w).
Proof.
  intros H. rewrite generate_unfold, (derive_user_id_ok _ _ _ H). reflexivity.
Qed.

(** [decode_jwt_payload], step by step. *)
Lemma decode_jwt_payload_unfold token :
  decode_jwt_payload token =
  let? payload := list_item (str_split 46 token) 1 in
  let? decoded := urlsafe_b64decode (padded_payload payload) in
  json_loads decoded.
Proof. reflexivity. Qed.

Lemma list_item_short {A} (l : list A) i :
  len l < Z.of_nat i + 1 -> list_item l i = Raise IndexError.
Proof.
  unfold len, list_item. intros H.
  destruct (nth_error l i) eqn:E; [|reflexivity].
  assert (nth_error l i <> None) as Hn by congruence.
  apply nth_error_Some in Hn. lia.
Qed.

Lemma extraction_fails_raises token :
  Spec.extraction_fails token -> exists x, extract_user_id token = Raise x.
Proof.
  unfold Spec.extraction_fails, extract_user_id. cbv zeta.
  rewrite decode_jwt_payload_unfold.
  intros [H | [(p & x & Hp & Hb) | [(p & b & x & Hp & Hb & Hj)
                                   | (p & b & d & Hp & Hb & Hj & Hd)]]].
  - rewrite (list_item_short _ 1) by (cbn; lia). eexists. reflexivity.
  - rewrite Hp. cbn [bind_result]. rewrite Hb. eexists. reflexivity.
  - rewrite Hp. cbn [bind_result]. rewrite Hb. cbn [bind_result].
    rewrite Hj. eexists. reflexivity.
  - rewrite Hp. cbn [bind_result]. rewrite Hb. cbn [bind_result].
    rewrite Hj. cbn [bind_result getitem]. rewrite Hd. eexists. reflexivity.
Qed.

Lemma payload_object_decodes token d :
  Spec.payload_object token d -> decode_jwt_payload token = Ok (PyDict d).
Proof.
  intros (p & b & Hp & Hb & Hj).
  rewrite decode_jwt_payload_unfold, Hp. cbn [bind_result].
  rewrite Hb. cbn [bind_result]. exact Hj.
Qed.

(** C2.  When the extraction fails in one of the four ways, the exception
    of the extraction goes into the log message only: the function
    continues as the log call does, and after it formats and signs the
    descriptor that ends in the literal [guest-user]. *)
Theorem failed_extraction_uses_guest_user
  (token request_id : pystr) (timestamp : Z) (user_content : pystr) (w : World) :
  Spec.extraction_fails token ->
  exists x,
    extract_user_id token = Raise x
    /\ generate_zs_signature token request_id timestamp user_content w =
       match debug_log (log_prefix ++ exn_str x) w with
       | (Ok _, w') =>
           ((let? ts := str_int timestamp in
             zs (lit "requestId," ++ request_id ++ lit ",timestamp,"
                 ++ ts ++ lit ",user_id," ++ lit "guest-user")
                user_content timestamp), w')
       | (Raise y, w') => (Raise y, w')
       end.
Proof.
  intros H. destruct (extraction_fails_raises _ H) as [x Hx].
  exists x. split; [exact Hx | apply generate_fallback, Hx].
Qed.

(** C4.  The descriptor is the literal text with the request id, the
    decimal timestamp and the string form of the derived user id, and the
    result is that of [zs] on (descriptor, user content, timestamp).  The
    timestamp is formatted by [str], which gives its plain decimal numeral
    or raises [ValueError]. *)
Theorem generate_builds_descriptor_and_delegates
  (token request_id : pystr) (timestamp : Z) (user_content : pystr) (w : World) :
  generate_zs_signature token request_id timestamp user_content w =
  match derive_user_id token w with
  | (Ok user_id, w') =>
      ((let? ts := str_int timestamp in
        let? uid := format_value user_id in
        zs (lit "requestId," ++ request_id ++ lit ",timestamp,"
            ++ ts ++ lit ",user_id," ++ uid)
           user_content timestamp), w')
  | (Raise x, w') => (Raise x, w')
  end
  /\ Spec.plain_decimal timestamp (decimal timestamp)
  /\ (str_int timestamp = Ok (decimal timestamp)
      \/ str_int timestamp = Raise ValueError).
Proof.
  split; [apply generate_unfold|].
  split; [apply decimal_plain | apply str_int_cases].
Qed.

(** C7.  For a token of three segments whose payload decodes to a JSON
    object with ["id": "u123"], the descriptor ends in [u123]; nothing is
    logged. *)
Theorem valid_token_user_id
  (token header payload sig : pystr) (decoded : bytes) (d : list (pystr * value))
  (request_id : pystr) (timestamp : Z) (user_content : pystr) (w : World) :
  str_split 46 token = [header; payload; sig] ->
  urlsafe_b64decode (padded_payload payload) = Ok decoded ->
  json_loads decoded = Ok (PyDict d) ->
  dict_get d (lit "id") = Some (PyStr (lit "u123")) ->
  generate_zs_signature token request_id timestamp user_content w =
  ((let? ts := str_int timestamp in
    zs (lit "requestId," ++ request_id ++ lit ",timestamp,"
        ++ ts ++ lit ",user_id," ++ lit "u123")
       user_content timestamp), w).
Proof.
  intros Hs Hb Hj Hd.
  rewrite (generate_with_id _ _ _ _ _ (PyStr (lit "u123"))).
  - destruct (str_int timestamp); reflexivity.
  - unfold extract_user_id. rewrite decode_jwt_payload_unfold, Hs.
    cbn [list_item nth_error bind_result]. rewrite Hb. cbn [bind_result].
    rewrite Hj. cbn [bind_result getitem]. rewrite Hd. reflexivity.
Qed.

(** C10.  Whatever value the key [id] of the payload object holds, its
    string form goes into the descriptor; the [except] clause is not
    entered and nothing is logged. *)
Theorem any_id_value_is_interpolated
  (token : pystr) (d : list (pystr * value)) (v : value)
  (request_id : pystr) (timestamp : Z) (user_content : pystr) (w : World) :
  Spec.payload_object token d ->
  dict_get d (lit "id") = Some v ->
  extract_user_id token = Ok v
  /\ derive_user_id token w = (Ok v, w)
  /\ generate_zs_signature token request_id timestamp user_content w =
     ((let? ts := str_int timestamp in
       let? uid := format_value v in
       zs (lit "requestId," ++ request_id ++ lit ",timestamp,"
           ++ ts ++ lit ",user_id," ++ uid)
          user_content timestamp), w).
Proof.
  intros Hp Hd.
  assert (He : extract_user_id token = Ok v).
  { unfold extract_user_id. rewrite (payload_object_decodes _ _ Hp).
    cbn [bind_result getitem]. rewrite Hd. reflexivity. }
  split; [exact He|]. split.
  - apply derive_user_id_ok, He.
  - apply generate_with_id, He.
Qed.

(** C9, as the code has it.  On the fallback path the outcome of the log
    call decides: when it returns, the signer's result for the guest-user
    descriptor is returned; when it raises, its exception leaves
    [generate_zs_signature]. *)
Theorem fallback_follows_log_call
  (token request_id : pystr) (timestamp : Z) (user_content : pystr)
  (w : World) (x : exn) :
  extract_user_id token = Raise x ->
  (forall u w', debug_log (log_prefix ++ exn_str x) w = (Ok u, w') ->
     generate_zs_signature token request_id timestamp user_content w =
     ((let? ts := str_int timestamp in
       zs (lit "requestId," ++ request_id ++ lit ",timestamp,"
           ++ ts ++ lit ",user_id," ++ lit "guest-user")
          user_content timestamp), w'))
  /\ (forall y w', debug_log (log_prefix ++ exn_str x) w = (Raise y, w') ->
        generate_zs_signature token request_id timestamp user_content w =
        (Raise y, w')).
Proof.
  intros H. split; intros ? w' Hlog;
    rewrite (generate_fallback _ _ _ _ _ _ H), Hlog; reflexivity.
Qed.

(** What the function returns is a signature result for its timestamp. *)
Lemma generate_shape token request_id timestamp user_content w v w' :
  generate_zs_signature token request_id timestamp user_content w = (Ok v, w') ->
  exists sig, v = signature_result sig timestamp /\ Spec.hex64 sig.
Proof.
  rewrite generate_unfold.
  destruct (derive_user_id token w) as [[uid|x] w1]; [|discriminate].
  destruct (str_int timestamp) as [ts|x]; cbn [bind_result]; [|discriminate].
  destruct (format_value uid) as [s|x]; cbn [bind_result]; [|discriminate].
  intros [= Hz _]. apply (zs_shape _ _ _ _ Hz).
Qed.

End EntryPoint.

(** ** Shape of the result *)

(** C3.  Where [str(timestamp)] returns and the strings have UTF-8 bytes
    the signer returns, and what it returns is the dict of a 64-digit
    lowercase hexadecimal signature and of the timestamp itself, as an
    [int]; whatever the entry point returns has the same shape. *)
Theorem result_shape `{RT : Runtime} :
  (forall e t timestamp r,
     str_int timestamp = Ok r ->
     Spec.encodable e -> Spec.encodable t ->
     exists sig,
       zs e t timestamp
       = Ok (PyDict [ (lit "signature", PyStr sig);
                      (lit "timestamp", PyInt timestamp) ])
       /\ Spec.hex64 sig)
  /\ (forall token request_id timestamp user_content w v w',
        generate_zs_signature token request_id timestamp user_content w
        = (Ok v, w') ->
        exists sig,
          v = PyDict [ (lit "signature", PyStr sig);
                       (lit "timestamp", PyInt timestamp) ]
          /\ Spec.hex64 sig).
Proof.
  split.
  - intros e t timestamp r Hr He Ht.
    exact (zs_returns e t timestamp r Hr He Ht).
  - intros token request_id timestamp user_content w v w' H.
    exact (generate_shape _ _ _ _ _ _ _ H).
Qed.

(** ** The time window *)

(** More window indexes than digests: two of them share a derived key. *)






Section Window.

Context `{RT : Runtime}.




End Window.


(** Both ends of one window, and the first instant of the next. *)
Example window_keys :
  @zs_o Demo.logging 1699999800000 = @zs_o Demo.logging 1700000099999
  /\ @zs_o Demo.logging 1700000099999 <> @zs_o Demo.logging 1700000100000.
Proof.
  rewrite !(@zs_o_converted Demo.logging _ (decimal _))
    by (apply (@str_int_short Demo.logging); vm_compute; discriminate).
  split.
  - reflexivity.
  - vm_compute. discriminate.
Qed.


(** ** Padding of the payload segment *)

Lemma str_mul_eq k : str_mul (lit "=") k = repeat 61 (Z.to_nat k).
Proof.
  unfold str_mul. induction (Z.to_nat k) as [|n IH]; [reflexivity|].
  cbn [repeat concat]. rewrite IH. reflexivity.
Qed.

Lemma padding_length_cases L :
  (L mod 4 = 0 /\ Spec.padding_length L = 0)
  \/ (L mod 4 <> 0 /\ Spec.padding_length L = 4 - L mod 4).
Proof.
  unfold Spec.padding_length.
  pose proof (Z.mod_pos_bound L 4 ltac:(lia)) as Hb.
  destruct (Z.eq_dec (L mod 4) 0) as [E|E].
  - left. split; [exact E|]. rewrite E. reflexivity.
  - right. split; [exact E|]. apply Z.mod_small. lia.
Qed.

(** C6.  The string given to the decoder is the payload segment followed
    by [(4 - L % 4) % 4] characters ['=']; none when [L] is a multiple of
    four; the padding the code computes and guards (["padding != 4"]) is
    the one of the formula. *)
Theorem payload_padding `{RT : Runtime} :
  (forall payload,
     padded_payload payload
     = payload ++ repeat 61 (Z.to_nat (Spec.padding_length (len payload))))
  /\ (forall payload,
        len payload mod 4 = 0 -> padded_payload payload = payload)
  /\ (forall token,
        decode_jwt_payload token =
        let? payload := list_item (str_split 46 token) 1 in
        let? decoded :=
          urlsafe_b64decode
            (payload ++ repeat 61 (Z.to_nat (Spec.padding_length (len payload)))) in
        json_loads decoded).
Proof.
  assert (Hpad : forall payload,
            padded_payload payload
            = payload ++ repeat 61 (Z.to_nat (Spec.padding_length (len payload)))).
  { intros payload. unfold padded_payload. cbv zeta.
    destruct (padding_length_cases (len payload)) as [[Hm ->] | [Hm ->]].
    - rewrite Hm. cbn. rewrite app_nil_r. reflexivity.
    - destruct (Z.eqb_spec (4 - len payload mod 4) 4) as [E|E]; [lia|].
      cbn [negb]. rewrite str_mul_eq. reflexivity. }
  split; [exact Hpad|]. split.
  - intros payload Hm. rewrite Hpad.
    destruct (padding_length_cases (len payload)) as [[_ ->] | [Hn _]];
      [apply app_nil_r | contradiction].
  - intros token. rewrite decode_jwt_payload_unfold.
    destruct (list_item (str_split 46 token) 1) as [p|x]; cbn [bind_result];
      [rewrite Hpad|]; reflexivity.
Qed.

Lemma payload_padding_witness :
  len (lit "eyJpZCI6IDQyfQ==") mod 4 = 0
  /\ padded_payload (lit "eyJpZCI6IDQyfQ==") = lit "eyJpZCI6IDQyfQ=="
  /\ padded_payload (lit "eyJpZCI6IDQyfQ") = lit "eyJpZCI6IDQyfQ==".
Proof.
  assert (H : len (lit "eyJpZCI6IDQyfQ==") mod 4 = 0) by reflexivity.
  split; [exact H|]. split.
  - exact (proj1 (proj2 (@payload_padding Demo.logging)) _ H).
  - rewrite (proj1 (@payload_padding Demo.logging)). reflexivity.
Defined.

(** ** Determinism *)

(** What the signer returns does not depend on the runtime it returns in. *)
Lemma zs_same_result (R1 R2 : Runtime) e t timestamp v1 v2 :
  @zs R1 e t timestamp = Ok v1 -> @zs R2 e t timestamp = Ok v2 -> v1 = v2.
Proof.
  rewrite !zs_value.
  destruct (@str_int R1 timestamp) as [r1|x1] eqn:E1; cbn [bind_result];
    [|discriminate].
  destruct (@str_int R2 timestamp) as [r2|x2] eqn:E2; cbn [bind_result];
    [|discriminate].
  apply str_int_ok in E1. apply str_int_ok in E2. subst r1 r2.
  intros H1 H2. congruence.
Qed.

Lemma format_same_result (R1 R2 : Runtime) v s1 s2 :
  (forall u, @repr R1 u = @repr R2 u) ->
  @format_value R1 v = Ok s1 -> @format_value R2 v = Ok s2 -> s1 = s2.
Proof.
  intros Hr. destruct v as [| [|] | n | | | |]; cbn [format_value];
    try rewrite Hr; try congruence.
  intros H1 H2. apply str_int_ok in H1. apply str_int_ok in H2. congruence.
Qed.

(** C8.  Two calls with the same four arguments that both return, return
    the same dict: in whatever state of the world each call starts, and
    whatever the log sink does, as long as the two runtimes have the same
    library functions. *)
Theorem signature_deterministic
  (R1 R2 : Runtime)
  (token request_id : pystr) (timestamp : Z) (user_content : pystr)
  (w1 w1' : @World R1) (w2 w2' : @World R2) (v1 v2 : value) :
  (forall s, @urlsafe_b64decode R1 s = @urlsafe_b64decode R2 s) ->
  (forall b, @json_loads R1 b = @json_loads R2 b) ->
  (forall v, @repr R1 v = @repr R2 v) ->
  @generate_zs_signature R1 token request_id timestamp user_content w1
  = (Ok v1, w1') ->
  @generate_zs_signature R2 token request_id timestamp user_content w2
  = (Ok v2, w2') ->
  v1 = v2.
Proof.
  intros Hb Hj Hr H1 H2.
  assert (He : @extract_user_id R1 token = @extract_user_id R2 token).
  { unfold extract_user_id. rewrite !decode_jwt_payload_unfold.
    destruct (list_item (str_split 46 token) 1) as [p|x]; cbn [bind_result];
      [|reflexivity].
    rewrite Hb. destruct (@urlsafe_b64decode R2 _) as [b|x]; cbn [bind_result];
      [|reflexivity].
    rewrite Hj. reflexivity. }
  assert (Hts : forall r1 r2, @str_int R1 timestamp = Ok r1 ->
                              @str_int R2 timestamp = Ok r2 -> r1 = r2).
  { intros r1 r2 E1 E2. apply str_int_ok in E1. apply str_int_ok in E2.
    congruence. }
  destruct (@extract_user_id R2 token) as [uid|x] eqn:E2.
  - rewrite (generate_with_id _ _ _ _ _ _ He) in H1.
    rewrite (generate_with_id _ _ _ _ _ _ E2) in H2.
    destruct (@str_int R1 timestamp) as [r1|y1] eqn:S1; cbn [bind_result] in H1;
      [|discriminate].
    destruct (@str_int R2 timestamp) as [r2|y2] eqn:S2; cbn [bind_result] in H2;
      [|discriminate].
    destruct (@format_value R1 uid) as [s1|z1] eqn:F1; cbn [bind_result] in H1;
      [|discriminate].
    destruct (@format_value R2 uid) as [s2|z2] eqn:F2; cbn [bind_result] in H2;
      [|discriminate].
    rewrite (Hts _ _ eq_refl eq_refl) in H1.
    rewrite (format_same_result R1 R2 uid s1 s2 Hr F1 F2) in H1.
    injection H1 as H1 _. injection H2 as H2 _.
    exact (zs_same_result R1 R2 _ _ _ _ _ H1 H2).
  - rewrite (generate_fallback _ _ _ _ _ _ He) in H1.
    rewrite (generate_fallback _ _ _ _ _ _ E2) in H2.
    destruct (@debug_log R1 _ w1) as [[u1|y1] w1'']; [|discriminate].
    destruct (@debug_log R2 _ w2) as [[u2|y2] w2'']; [|discriminate].
    destruct (@str_int R1 timestamp) as [r1|z1] eqn:S1; cbn [bind_result] in H1;
      [|discriminate].
    destruct (@str_int R2 timestamp) as [r2|z2] eqn:S2; cbn [bind_result] in H2;
      [|discriminate].
    rewrite (Hts _ _ eq_refl eq_refl) in H1.
    injection H1 as H1 _. injection H2 as H2 _.
    exact (zs_same_result R1 R2 _ _ _ _ _ H1 H2).
Qed.

(** ** Runs of the module *)

Lemma str_int_demo_timestamp :
  @str_int Demo.logging 1700000000000 = Ok (lit "1700000000000").
Proof. apply (@str_int_short Demo.logging). vm_compute. discriminate. Qed.

(** The fixed vector of the specification: request id [r1], timestamp
    1700000000000, content [hello], a token without payload segment. *)
Example guest_user_vector :
  @generate_zs_signature Demo.logging
    (lit "abc") (lit "r1") 1700000000000 (lit "hello") []
  = (Ok (signature_result
           (lit "d4018a5bf4452d2f7fd25a697f4ea26bf39588bb2a81b21f963427154ba64bfb")
           1700000000000),
     [log_prefix ++ lit "list index out of range"]).
Proof. vm_compute. reflexivity. Qed.

Example token_with_id_vector :
  @generate_zs_signature Demo.logging
    (lit "h.eyJpZCI6ICJ1MTIzIn0.s") (lit "r1") 1700000000000 (lit "hello") []
  = (Ok (signature_result
           (lit "8011da479f2545e5b4d7704a05e88c15e2525f953cbce33cc5dbef31909edb30")
           1700000000000),
     []).
Proof. vm_compute. reflexivity. Qed.

(** A timestamp of 4301 digits: the f-string of line 85 raises, after the
    fallback has been logged. *)
Example long_timestamp_vector :
  @generate_zs_signature Demo.logging
    (lit "abc") (lit "r1") (10 ^ 4300) (lit "hello") []
  = (Raise ValueError, [log_prefix ++ lit "list index out of range"]).
Proof.
  assert (E : @extract_user_id Demo.logging (lit "abc") = Raise IndexError)
    by (vm_compute; reflexivity).
  rewrite (@generate_fallback Demo.logging _ _ _ _ _ _ E).
  rewrite str_int_demo_long. reflexivity.
Qed.

Example token_without_id_vector :
  @extract_user_id Demo.logging (lit "h.eyJzdWIiOiAieCJ9.s")
  = Raise (KeyError (lit "id"))
  /\ @extract_user_id Demo.logging (lit "h.WzFd.s") = Raise TypeError
  /\ @extract_user_id Demo.logging (lit "h.abcde.s") = Raise BinasciiError
  /\ @extract_user_id Demo.logging (lit "h.e30x.s") = Raise JSONDecodeError.
Proof. repeat split; vm_compute; reflexivity. Qed.

Lemma failed_extraction_uses_guest_user_witness :
  @Spec.extraction_fails Demo.logging (lit "abc")
  /\ exists x,
       @extract_user_id Demo.logging (lit "abc") = Raise x
       /\ @generate_zs_signature Demo.logging
            (lit "abc") (lit "r1") 1700000000000 (lit "hello") []
          = ((let? ts := @str_int Demo.logging 1700000000000 in
              @zs Demo.logging
                (lit "requestId," ++ lit "r1" ++ lit ",timestamp,"
                 ++ ts ++ lit ",user_id," ++ lit "guest-user")
                (lit "hello") 1700000000000),
             [log_prefix ++ Demo.str_exn x]).
Proof.
  assert (H : @Spec.extraction_fails Demo.logging (lit "abc")).
  { left. vm_compute. reflexivity. }
  split; [exact H|].
  exact (@failed_extraction_uses_guest_user Demo.logging
           (lit "abc") (lit "r1") 1700000000000 (lit "hello") [] H).
Defined.

Lemma result_shape_witness :
  @str_int Demo.logging 1700000000000 = Ok (lit "1700000000000")
  /\ Spec.encodable (lit "requestId,r1,timestamp,1700000000000,user_id,guest-user")
  /\ Spec.encodable (lit "hello")
  /\ (exists sig,
        @zs Demo.logging
           (lit "requestId,r1,timestamp,1700000000000,user_id,guest-user")
           (lit "hello") 1700000000000
        = Ok (PyDict [ (lit "signature", PyStr sig);
                       (lit "timestamp", PyInt 1700000000000) ])
        /\ Spec.hex64 sig)
  /\ (exists sig,
        signature_result
          (lit "d4018a5bf4452d2f7fd25a697f4ea26bf39588bb2a81b21f963427154ba64bfb")
          1700000000000
        = PyDict [ (lit "signature", PyStr sig);
                   (lit "timestamp", PyInt 1700000000000) ]
        /\ Spec.hex64 sig).
Proof.
  assert (He : Spec.encodable
                 (lit "requestId,r1,timestamp,1700000000000,user_id,guest-user")).
  { eexists. unfold Spec.utf8_of. vm_compute. reflexivity. }
  assert (Ht : Spec.encodable (lit "hello")).
  { eexists. unfold Spec.utf8_of. vm_compute. reflexivity. }
  split; [exact str_int_demo_timestamp|].
  split; [exact He|]. split; [exact Ht|]. split.
  - exact (proj1 (@result_shape Demo.logging) _ _ 1700000000000 _
             str_int_demo_timestamp He Ht).
  - exact (proj2 (@result_shape Demo.logging) _ _ _ _ _ _ _ guest_user_vector).
Defined.

Lemma valid_token_user_id_witness :
  @generate_zs_signature Demo.logging
    (lit "h.eyJpZCI6ICJ1MTIzIn0.s") (lit "r1") 1700000000000 (lit "hello") []
  = ((let? ts := @str_int Demo.logging 1700000000000 in
      @zs Demo.logging
        (lit "requestId," ++ lit "r1" ++ lit ",timestamp,"
         ++ ts ++ lit ",user_id," ++ lit "u123")
        (lit "hello") 1700000000000), []).
Proof.
  apply (@valid_token_user_id Demo.logging
           (lit "h.eyJpZCI6ICJ1MTIzIn0.s")
           (lit "h") (lit "eyJpZCI6ICJ1MTIzIn0") (lit "s")
           [123; 34; 105; 100; 34; 58; 32; 34; 117; 49; 50; 51; 34; 125]
           [(lit "id", PyStr (lit "u123"))]);
    vm_compute; reflexivity.
Defined.

Lemma any_id_value_is_interpolated_witness :
  @Spec.payload_object Demo.logging (lit "h.eyJpZCI6IDQyfQ.s") [(lit "id", PyInt 42)]
  /\ @format_value Demo.logging (PyInt 42) = Ok (lit "42")
  /\ @generate_zs_signature Demo.logging
       (lit "h.eyJpZCI6IDQyfQ.s") (lit "r1") 1700000000000 (lit "hello") []
     = ((let? ts := @str_int Demo.logging 1700000000000 in
         let? uid := @format_value Demo.logging (PyInt 42) in
         @zs Demo.logging
           (lit "requestId," ++ lit "r1" ++ lit ",timestamp,"
            ++ ts ++ lit ",user_id," ++ uid)
           (lit "hello") 1700000000000), []).
Proof.
  assert (H : @Spec.payload_object Demo.logging
                (lit "h.eyJpZCI6IDQyfQ.s") [(lit "id", PyInt 42)]).
  { exists (lit "eyJpZCI6IDQyfQ"), [123; 34; 105; 100; 34; 58; 32; 52; 50; 125].
    split; [|split]; vm_compute; reflexivity. }
  split; [exact H|].
  split; [apply (@str_int_short Demo.logging); vm_compute; discriminate|].
  exact (proj2 (proj2 (@any_id_value_is_interpolated Demo.logging
           (lit "h.eyJpZCI6IDQyfQ.s") [(lit "id", PyInt 42)] (PyInt 42)
           (lit "r1") 1700000000000 (lit "hello") [] H eq_refl))).
Defined.

(** The id values that are not strings: a list, null. *)
Example id_values_vector :
  (exists w,
     @generate_zs_signature Demo.logging
       (lit "h.eyJpZCI6IFsxLCAiYSIsIHRydWVdfQ.s") (lit "r1") 0 (lit "hello") []
     = (@zs Demo.logging
          (lit "requestId,r1,timestamp,0,user_id,[1, 'a', True]") (lit "hello") 0, w)
     /\ w = [])
  /\ (exists w,
        @generate_zs_signature Demo.logging
          (lit "h.eyJpZCI6IG51bGx9.s") (lit "r1") 0 (lit "hello") []
        = (@zs Demo.logging
             (lit "requestId,r1,timestamp,0,user_id,None") (lit "hello") 0, w)
        /\ w = []).
Proof. split; eexists; split; vm_compute; reflexivity. Qed.

Lemma signature_deterministic_witness :
  fst (@generate_zs_signature Demo.logging
         (lit "h.eyJpZCI6ICJ1MTIzIn0.s") (lit "r1") 1700000000000 (lit "hello") [])
  = fst (@generate_zs_signature Demo.broken_sink
           (lit "h.eyJpZCI6ICJ1MTIzIn0.s") (lit "r1") 1700000000000 (lit "hello")
           [lit "an earlier line"]).
Proof.
  destruct (@generate_zs_signature Demo.logging
              (lit "h.eyJpZCI6ICJ1MTIzIn0.s") (lit "r1") 1700000000000
              (lit "hello") []) as [[v1|x1] w1'] eqn:E1;
    [|vm_compute in E1; discriminate].
  destruct (@generate_zs_signature Demo.broken_sink
              (lit "h.eyJpZCI6ICJ1MTIzIn0.s") (lit "r1") 1700000000000
              (lit "hello") [lit "an earlier line"]) as [[v2|x2] w2'] eqn:E2;
    [|vm_compute in E2; discriminate].
  cbn [fst]. f_equal.
  exact (signature_deterministic Demo.logging Demo.broken_sink _ _ _ _ _ _ _ _ _ _
           (fun _ => eq_refl) (fun _ => eq_refl) (fun _ => eq_refl) E1 E2).
Defined.

(** ** A log sink that fails *)

(** C9 as stated does not hold: with a log sink that raises, a token whose
    extraction fails makes [generate_zs_signature] raise the exception of
    the sink; no signature result is returned. *)
Lemma log_failure_propagates :
  @extract_user_id Demo.broken_sink (lit "abc") = Raise IndexError
  /\ @generate_zs_signature Demo.broken_sink
       (lit "abc") (lit "r1") 1700000000000 (lit "hello") []
     = (Raise OSError, [])
  /\ ~ (exists v w',
          @generate_zs_signature Demo.broken_sink
            (lit "abc") (lit "r1") 1700000000000 (lit "hello") []
          = (Ok v, w')).
Proof.
  assert (H : @generate_zs_signature Demo.broken_sink
                (lit "abc") (lit "r1") 1700000000000 (lit "hello") []
              = (Raise OSError, [])) by reflexivity.
  split; [reflexivity|]. split; [exact H|].
  intros (v & w' & Hv). rewrite H in Hv. discriminate.
Qed.

Lemma fallback_follows_log_call_witness :
  @extract_user_id Demo.logging (lit "abc") = Raise IndexError
  /\ @generate_zs_signature Demo.logging
       (lit "abc") (lit "r1") 1700000000000 (lit "hello") []
     = ((let? ts := @str_int Demo.logging 1700000000000 in
         @zs Demo.logging
           (lit "requestId," ++ lit "r1" ++ lit ",timestamp,"
            ++ ts ++ lit ",user_id," ++ lit "guest-user")
           (lit "hello") 1700000000000),
        [log_prefix ++ Demo.str_exn IndexError])
  /\ @generate_zs_signature Demo.broken_sink
       (lit "abc") (lit "r1") 1700000000000 (lit "hello") []
     = (Raise OSError, []).
Proof.
  assert (H1 : @extract_user_id Demo.logging (lit "abc") = Raise IndexError)
    by reflexivity.
  assert (H2 : @extract_user_id Demo.broken_sink (lit "abc") = Raise IndexError)
    by reflexivity.
  split; [exact H1|]. split.
  - exact (proj1 (@fallback_follows_log_call Demo.logging
             (lit "abc") (lit "r1") 1700000000000 (lit "hello") [] IndexError H1)
             tt _ eq_refl).
  - exact (proj2 (@fallback_follows_log_call Demo.broken_sink
             (lit "abc") (lit "r1") 1700000000000 (lit "hello") [] IndexError H2)
             OSError _ eq_refl).
Defined.

(** * Further properties *)

(** ** Splitting a token *)

Lemma str_split_nonempty sep s : str_split sep s <> [].
Proof.
  destruct s as [|c s]; cbn [str_split]; [discriminate|].
  destruct (c =? sep); [discriminate|].
  destruct (str_split sep s); discriminate.
Qed.

Lemma str_split_without sep s : without sep s -> str_split sep s = [s].
Proof.
  induction 1 as [|c s Hc _ IH]; cbn [str_split]; [reflexivity|].
  destruct (Z.eqb_spec c sep); [contradiction|]. rewrite IH. reflexivity.
Qed.

Lemma str_split_app sep a s :
  without sep a -> str_split sep (a ++ sep :: s) = a :: str_split sep s.
Proof.
  induction 1 as [|c a Hc _ IH]; cbn [str_split app].
  - rewrite Z.eqb_refl. reflexivity.
  - destruct (Z.eqb_spec c sep); [contradiction|]. rewrite IH. reflexivity.
Qed.

Lemma str_split_pieces sep s : Forall (without sep) (str_split sep s).
Proof.
  induction s as [|c s IH]; cbn [str_split].
  - repeat constructor.
  - destruct (Z.eqb_spec c sep) as [E|E].
    + constructor; [constructor | exact IH].
    + destruct (str_split sep s) as [|p ps]; [repeat constructor; exact E|].
      inversion IH; subst. constructor; [constructor; assumption | assumption].
Qed.

Lemma str_split_join sep s : Demo.join [sep] (str_split sep s) = s.
Proof.
  induction s as [|c s IH]; cbn [str_split]; [reflexivity|].
  destruct (Z.eqb_spec c sep) as [E|E].
  - subst c. pose proof (str_split_nonempty sep s) as Hne.
    destruct (str_split sep s) as [|p ps]; [contradiction|].
    cbn [Demo.join app] in *. rewrite IH. reflexivity.
  - pose proof (str_split_nonempty sep s) as Hne.
    destruct (str_split sep s) as [|p ps]; [contradiction|].
    destruct ps as [|q ps]; cbn [Demo.join app] in *; rewrite IH; reflexivity.
Qed.

Lemma str_split_length sep s :
  length (str_split sep s) = S (count_char sep s).
Proof.
  unfold count_char.
  induction s as [|c s IH]; cbn [str_split filter]; [reflexivity|].
  rewrite (Z.eqb_sym sep c).
  destruct (Z.eqb_spec c sep) as [E|E]; cbn [length].
  - rewrite IH. reflexivity.
  - pose proof (str_split_nonempty sep s) as Hne.
    destruct (str_split sep s) as [|p ps]; [contradiction|].
    cbn [length] in *. exact IH.
Qed.

(** X1.  [token.split('.')] cuts the token at its dots and nowhere else:
    the pieces have no dot, joined by dots they give the token back, and
    there is one piece more than there are dots. *)
Theorem token_segments (token : pystr) :
  Forall (without 46) (str_split 46 token)
  /\ Demo.join (lit ".") (str_split 46 token) = token
  /\ length (str_split 46 token) = S (count_char 46 token).
Proof.
  split; [apply str_split_pieces|].
  split; [apply (str_split_join 46) | apply str_split_length].
Qed.

Section Segments.

Context `{RT : Runtime}.

Lemma decode_second_segment token p :
  list_item (str_split 46 token) 1 = Ok p ->
  decode_jwt_payload token =
  let? decoded := urlsafe_b64decode (padded_payload p) in json_loads decoded.
Proof.
  intros H. rewrite decode_jwt_payload_unfold, H. reflexivity.
Qed.

(** A token of two segments, and one with more. *)
Lemma decode_two_segments h p :
  without 46 h -> without 46 p ->
  decode_jwt_payload (h ++ lit "." ++ p) =
  let? decoded := urlsafe_b64decode (padded_payload p) in json_loads decoded.
Proof.
  intros Hh Hp. apply decode_second_segment.
  change (lit "." ++ p) with (46 :: p).
  rewrite (str_split_app 46 h p Hh), (str_split_without 46 p Hp). reflexivity.
Qed.

Lemma decode_more_segments h p rest :
  without 46 h -> without 46 p ->
  decode_jwt_payload (h ++ lit "." ++ p ++ lit "." ++ rest) =
  let? decoded := urlsafe_b64decode (padded_payload p) in json_loads decoded.
Proof.
  intros Hh Hp. apply decode_second_segment.
  change (lit "." ++ p ++ lit "." ++ rest) with (46 :: (p ++ 46 :: rest)).
  rewrite (str_split_app 46 h _ Hh), (str_split_app 46 p rest Hp). reflexivity.
Qed.

(** X2.  Only the second segment is read.  A token [h.p], and a token
    [h.p.rest] with anything after the second dot, decode as the segment
    [p] alone does: header, signature and further segments are ignored,
    and the number of segments is not checked beyond the second. *)
Theorem only_payload_segment_is_read (h p rest : pystr) :
  without 46 h -> without 46 p ->
  let payload_of_p :=
    let? decoded := urlsafe_b64decode (padded_payload p) in json_loads decoded in
  decode_jwt_payload (h ++ lit "." ++ p) = payload_of_p
  /\ decode_jwt_payload (h ++ lit "." ++ p ++ lit "." ++ rest) = payload_of_p.
Proof.
  intros Hh Hp. cbv zeta. split.
  - apply decode_two_segments; assumption.
  - apply decode_more_segments; assumption.
Qed.

(** X3.  Hence two tokens with the same payload segment get the same
    result from [generate_zs_signature], whatever their headers and
    signatures are: the token's own signature is never looked at. *)
Theorem token_signature_is_not_verified
  (h1 h2 p s1 s2 request_id : pystr) (timestamp : Z) (user_content : pystr)
  (w : World) :
  without 46 h1 -> without 46 h2 -> without 46 p ->
  generate_zs_signature (h1 ++ lit "." ++ p ++ lit "." ++ s1)
    request_id timestamp user_content w
  = generate_zs_signature (h2 ++ lit "." ++ p ++ lit "." ++ s2)
      request_id timestamp user_content w.
Proof.
  intros H1 H2 Hp.
  assert (He : extract_user_id (h1 ++ lit "." ++ p ++ lit "." ++ s1)
               = extract_user_id (h2 ++ lit "." ++ p ++ lit "." ++ s2)).
  { unfold extract_user_id.
    rewrite (decode_more_segments h1 p s1 H1 Hp).
    rewrite (decode_more_segments h2 p s2 H2 Hp).
    reflexivity. }
  destruct (extract_user_id (h2 ++ lit "." ++ p ++ lit "." ++ s2)) as [v|x] eqn:E.
  - rewrite (generate_with_id _ _ _ _ _ _ He), (generate_with_id _ _ _ _ _ _ E).
    reflexivity.
  - rewrite (generate_fallback _ _ _ _ _ _ He), (generate_fallback _ _ _ _ _ _ E).
    reflexivity.
Qed.

Lemma without_lit_check c s :
  forallb (fun x => negb (x =? c)) s = true -> without c s.
Proof.
  intros H. apply Forall_forall. intros x Hx.
  rewrite forallb_forall in H. specialize (H x Hx).
  destruct (Z.eqb_spec x c); [discriminate | assumption].
Qed.

End Segments.

Lemma only_payload_segment_is_read_witness :
  without 46 (lit "h") /\ without 46 (lit "eyJpZCI6IDQyfQ")
  /\ @decode_jwt_payload Demo.logging (lit "h" ++ lit "." ++ lit "eyJpZCI6IDQyfQ")
     = Ok (PyDict [(lit "id", PyInt 42)])
  /\ @decode_jwt_payload Demo.logging
       (lit "h" ++ lit "." ++ lit "eyJpZCI6IDQyfQ" ++ lit "." ++ lit "s.t.u")
     = Ok (PyDict [(lit "id", PyInt 42)]).
Proof.
  assert (Hh : without 46 (lit "h")) by (apply without_lit_check; reflexivity).
  assert (Hp : without 46 (lit "eyJpZCI6IDQyfQ"))
    by (apply without_lit_check; reflexivity).
  split; [exact Hh|]. split; [exact Hp|].
  pose proof (@only_payload_segment_is_read Demo.logging
                (lit "h") (lit "eyJpZCI6IDQyfQ") (lit "s.t.u") Hh Hp) as [H1 H2].
  split.
  - rewrite H1. vm_compute. reflexivity.
  - rewrite H2. vm_compute. reflexivity.
Defined.

Lemma token_signature_is_not_verified_witness :
  without 46 (lit "h") /\ without 46 (lit "forged")
  /\ without 46 (lit "eyJpZCI6ICJ1MTIzIn0")
  /\ @generate_zs_signature Demo.logging
       (lit "h" ++ lit "." ++ lit "eyJpZCI6ICJ1MTIzIn0" ++ lit "." ++ lit "s")
       (lit "r1") 1700000000000 (lit "hello") []
     = @generate_zs_signature Demo.logging
         (lit "forged" ++ lit "." ++ lit "eyJpZCI6ICJ1MTIzIn0" ++ lit "." ++ lit "")
         (lit "r1") 1700000000000 (lit "hello") [].
Proof.
  assert (H1 : without 46 (lit "h")) by (apply without_lit_check; reflexivity).
  assert (H2 : without 46 (lit "forged")) by (apply without_lit_check; reflexivity).
  assert (Hp : without 46 (lit "eyJpZCI6ICJ1MTIzIn0"))
    by (apply without_lit_check; reflexivity).
  split; [exact H1|]. split; [exact H2|]. split; [exact Hp|].
  exact (@token_signature_is_not_verified Demo.logging _ _ _ (lit "s") (lit "")
           (lit "r1") 1700000000000 (lit "hello") [] H1 H2 Hp).
Defined.

(** ** Padding, again *)

Lemma padded_payload_repeat payload :
  padded_payload payload
  = payload ++ repeat 61 (Z.to_nat (Spec.padding_length (len payload))).
Proof.
  unfold padded_payload. cbv zeta.
  destruct (padding_length_cases (len payload)) as [[Hm ->] | [Hm ->]].
  - rewrite Hm. cbn. rewrite app_nil_r. reflexivity.
  - destruct (Z.eqb_spec (4 - len payload mod 4) 4) as [E|E]; [lia|].
    cbn [negb]. rewrite str_mul_eq. reflexivity.
Qed.

Lemma padded_payload_len payload :
  len (padded_payload payload)
  = len payload + Spec.padding_length (len payload).
Proof.
  rewrite padded_payload_repeat. unfold len.
  rewrite length_app, repeat_length, Nat2Z.inj_add, Z2Nat.id; [reflexivity|].
  unfold Spec.padding_length. apply Z.mod_pos_bound. lia.
Qed.

(** X4.  What goes to the decoder has a length that is a multiple of four,
    at most three characters more than the segment; padding a padded
    segment again adds nothing. *)
Theorem padded_payload_length (payload : pystr) :
  len (padded_payload payload) mod 4 = 0
  /\ len payload <= len (padded_payload payload) < len payload + 4
  /\ padded_payload (padded_payload payload) = padded_payload payload.
Proof.
  assert (Hmod : forall p, len (padded_payload p) mod 4 = 0).
  { intros p. rewrite padded_payload_len.
    destruct (padding_length_cases (len p)) as [[Hm ->] | [Hm ->]].
    - rewrite Z.add_0_r. exact Hm.
    - pose proof (Z.div_mod (len p) 4 ltac:(lia)) as Hd.
      replace (len p + (4 - len p mod 4)) with ((len p / 4 + 1) * 4) by lia.
      apply Z.mod_mul. lia. }
  split; [apply Hmod|]. split.
  - rewrite padded_payload_len. unfold Spec.padding_length.
    pose proof (Z.mod_pos_bound (4 - len payload mod 4) 4 ltac:(lia)). lia.
  - rewrite (padded_payload_repeat (padded_payload payload)).
    destruct (padding_length_cases (len (padded_payload payload)))
      as [[_ ->] | [Hn _]]; [apply app_nil_r|].
    contradiction (Hn (Hmod payload)).
Qed.

(** ** The exception of a failed extraction *)

Section Extraction.

Context `{RT : Runtime}.

(** X5.  Which exception the [try] body raises.  A token without a dot,
    the empty token among them, raises [IndexError]; an exception of the
    decoder or of [json.loads] passes unchanged; a payload object
    without the key raises [KeyError('id')]; a payload that is not an
    object (a list, a string, a number, [null]) raises [TypeError]. *)
Theorem extraction_exceptions (token : pystr) :
  (without 46 token -> extract_user_id token = Raise IndexError)
  /\ (forall p x,
        list_item (str_split 46 token) 1 = Ok p ->
        urlsafe_b64decode (padded_payload p) = Raise x ->
        extract_user_id token = Raise x)
  /\ (forall p b x,
        list_item (str_split 46 token) 1 = Ok p ->
        urlsafe_b64decode (padded_payload p) = Ok b ->
        json_loads b = Raise x ->
        extract_user_id token = Raise x)
  /\ (forall p b d,
        list_item (str_split 46 token) 1 = Ok p ->
        urlsafe_b64decode (padded_payload p) = Ok b ->
        json_loads b = Ok (PyDict d) ->
        dict_get d (lit "id") = None ->
        extract_user_id token = Raise (KeyError (lit "id")))
  /\ (forall p b v,
        list_item (str_split 46 token) 1 = Ok p ->
        urlsafe_b64decode (padded_payload p) = Ok b ->
        json_loads b = Ok v ->
        (forall d, v <> PyDict d) ->
        extract_user_id token = Raise TypeError).
Proof.
  unfold extract_user_id. rewrite decode_jwt_payload_unfold.
  split; [|split; [|split; [|split]]].
  - intros H. rewrite (str_split_without 46 token H). reflexivity.
  - intros p x Hp Hb. rewrite Hp. cbn [bind_result]. rewrite Hb. reflexivity.
  - intros p b x Hp Hb Hj. rewrite Hp. cbn [bind_result]. rewrite Hb.
    cbn [bind_result]. rewrite Hj. reflexivity.
  - intros p b d Hp Hb Hj Hd. rewrite Hp. cbn [bind_result]. rewrite Hb.
    cbn [bind_result]. rewrite Hj. cbn [bind_result getitem]. rewrite Hd.
    reflexivity.
  - intros p b v Hp Hb Hj Hv. rewrite Hp. cbn [bind_result]. rewrite Hb.
    cbn [bind_result]. rewrite Hj. cbn [bind_result].
    destruct v; try reflexivity. contradiction (Hv items eq_refl).
Qed.

Lemma getitem_not_dict v k :
  (forall d, v <> PyDict d) -> getitem v k = Raise TypeError.
Proof.
  intros Hv. destruct v; try reflexivity. contradiction (Hv items eq_refl).
Qed.

(** X6.  A payload that is valid JSON but not an object also takes the
    fallback: the [TypeError] of [payload['id']] is logged and the
    descriptor gets [guest-user]. *)
Theorem non_object_payload_uses_guest_user
  (token p : pystr) (b : bytes) (v : value)
  (request_id : pystr) (timestamp : Z) (user_content : pystr) (w : World) :
  list_item (str_split 46 token) 1 = Ok p ->
  urlsafe_b64decode (padded_payload p) = Ok b ->
  json_loads b = Ok v ->
  (forall d, v <> PyDict d) ->
  decode_jwt_payload token = Ok v
  /\ generate_zs_signature token request_id timestamp user_content w =
     match debug_log (log_prefix ++ exn_str TypeError) w with
     | (Ok _, w') =>
         ((let? ts := str_int timestamp in
           zs (lit "requestId," ++ request_id ++ lit ",timestamp,"
               ++ ts ++ lit ",user_id," ++ lit "guest-user")
              user_content timestamp), w')
     | (Raise y, w') => (Raise y, w')
     end.
Proof.
  intros Hp Hb Hj Hv.
  assert (Hd : decode_jwt_payload token = Ok v).
  { rewrite decode_jwt_payload_unfold, Hp. cbn [bind_result]. rewrite Hb.
    cbn [bind_result]. exact Hj. }
  split; [exact Hd|].
  apply generate_fallback. unfold extract_user_id. rewrite Hd.
  cbn [bind_result]. apply getitem_not_dict, Hv.
Qed.

(** X8.  What can leave the function as an exception: an exception of
    the log call on the fallback path, the [ValueError] of [str] on an
    integer of too many digits, or the [UnicodeEncodeError] of the
    signer; an exception of the extraction never does. *)
Theorem escaping_exceptions
  (token request_id : pystr) (timestamp : Z) (user_content : pystr)
  (w w' : World) (y : exn) :
  generate_zs_signature token request_id timestamp user_content w = (Raise y, w') ->
  (exists x,
     extract_user_id token = Raise x
     /\ debug_log (log_prefix ++ exn_str x) w = (Raise y, w'))
  \/ y = ValueError \/ y = UnicodeEncodeError.
Proof.
  assert (Hfmt : forall v, format_value v = Raise y -> y = ValueError).
  { intros v. destruct v as [| [|] | n | | | |]; cbn [format_value];
      try discriminate. apply str_int_raise. }
  assert (Htail : forall uid,
            (let? ts := str_int timestamp in
             let? s := format_value uid in
             zs (lit "requestId," ++ request_id ++ lit ",timestamp,"
                 ++ ts ++ lit ",user_id," ++ s) user_content timestamp)
            = Raise y ->
            y = ValueError \/ y = UnicodeEncodeError).
  { intros uid.
    destruct (str_int timestamp) as [ts|x] eqn:Es; cbn [bind_result].
    - destruct (format_value uid) as [s|x] eqn:Ef; cbn [bind_result].
      + apply zs_raises.
      + intros [= <-]. left. apply (Hfmt _ Ef).
    - intros [= <-]. left. apply (str_int_raise _ _ Es). }
  destruct (extract_user_id token) as [v|x] eqn:E.
  - rewrite (generate_with_id _ _ _ _ _ _ E). intros [= Hz _].
    right. exact (Htail _ Hz).
  - rewrite (generate_fallback _ _ _ _ _ _ E).
    destruct (debug_log _ w) as [[u|y'] w''] eqn:El.
    + intros [= Hz _]. right. apply (Htail (PyStr (lit "guest-user"))).
      cbn [format_value bind_result].
      destruct (str_int timestamp); exact Hz.
    + intros [= -> ->]. left. exists x. split; [reflexivity | exact El].
Qed.

(** X9.  Every token whose extraction fails is signed alike, and as a
    token whose id is the string [guest-user] is: the returned dict does
    not tell them apart. *)
Theorem failing_tokens_sign_as_guest
  (token1 token2 request_id : pystr) (timestamp : Z) (user_content : pystr)
  (w1 w1' w2 : World) (x1 : exn) (u1 : unit) :
  extract_user_id token1 = Raise x1 ->
  debug_log (log_prefix ++ exn_str x1) w1 = (Ok u1, w1') ->
  (forall x2 u2 w2',
     extract_user_id token2 = Raise x2 ->
     debug_log (log_prefix ++ exn_str x2) w2 = (Ok u2, w2') ->
     fst (generate_zs_signature token1 request_id timestamp user_content w1)
     = fst (generate_zs_signature token2 request_id timestamp user_content w2))
  /\ (extract_user_id token2 = Ok (PyStr (lit "guest-user")) ->
      fst (generate_zs_signature token1 request_id timestamp user_content w1)
      = fst (generate_zs_signature token2 request_id timestamp user_content w2)).
Proof.
  intros E1 L1.
  rewrite (generate_fallback _ _ _ _ _ _ E1), L1. cbn [fst]. split.
  - intros x2 u2 w2' E2 L2.
    rewrite (generate_fallback _ _ _ _ _ _ E2), L2. reflexivity.
  - intros E2. rewrite (generate_with_id _ _ _ _ _ _ E2). reflexivity.
Qed.

End Extraction.

(** ** When the signer raises *)

Lemma is_scalar_dec c : {is_scalar c} + {~ is_scalar c}.
Proof.
  unfold is_scalar.
  destruct (Z_le_dec 0 c), (Z_lt_dec c 0xD800), (Z_lt_dec 0xDFFF c),
           (Z_lt_dec c 0x110000); (left; lia) || (right; lia).
Defined.

Lemma utf8_char_scalar c : is_scalar c -> exists b, utf8_char c = Ok b.
Proof.
  unfold is_scalar, utf8_char. intros H.
  repeat match goal with
         | |- context [if ?x <? ?y then _ else _] => destruct (Z.ltb_spec x y)
         | |- context [(?x <=? ?y) && (?u <=? ?v)] =>
             destruct (Z.leb_spec x y), (Z.leb_spec u v); cbn [andb]
         end; try lia; eexists; reflexivity.
Qed.

Lemma utf8_char_not_scalar c :
  ~ is_scalar c -> utf8_char c = Raise UnicodeEncodeError.
Proof.
  unfold is_scalar, utf8_char. intros H.
  repeat match goal with
         | |- context [if ?x <? ?y then _ else _] => destruct (Z.ltb_spec x y)
         | |- context [(?x <=? ?y) && (?u <=? ?v)] =>
             destruct (Z.leb_spec x y), (Z.leb_spec u v); cbn [andb]
         end; try reflexivity; lia.
Qed.

Lemma encode_utf8_scalar s : Forall is_scalar s -> Spec.encodable s.
Proof.
  unfold Spec.encodable, Spec.utf8_of.
  induction 1 as [|c s Hc _ [bs IH]]; [exists []; reflexivity|].
  destruct (utf8_char_scalar c Hc) as [b Hb].
  exists (b ++ bs). cbn [encode_utf8]. rewrite Hb, IH. reflexivity.
Qed.

Lemma encode_utf8_not_scalar s :
  Exists (fun c => ~ is_scalar c) s -> encode_utf8 s = Raise UnicodeEncodeError.
Proof.
  induction s as [|c s IH]; intros H; [inversion H|].
  cbn [encode_utf8].
  destruct (is_scalar_dec c) as [Hc|Hc].
  - destruct (utf8_char_scalar c Hc) as [b ->]. cbn [bind_result].
    rewrite IH; [reflexivity|]. inversion H; subst; [contradiction | assumption].
  - rewrite (utf8_char_not_scalar c Hc). reflexivity.
Qed.

(** X7.  The outcome of the signer.  Where [str(timestamp)] raises, it
    raises that [ValueError] whatever [e] and [t] are.  Where it returns,
    the signer returns exactly on strings of code points that are not
    surrogates, and raises [UnicodeEncodeError] if [e] or [t] holds a
    surrogate (or a number outside the code space). *)
Theorem zs_outcome `{RT : Runtime} (e t : pystr) (timestamp : Z) :
  (str_int timestamp = Raise ValueError ->
   zs e t timestamp = Raise ValueError)
  /\ (forall r, str_int timestamp = Ok r ->
      Forall is_scalar e -> Forall is_scalar t ->
      exists sig,
        zs e t timestamp = Ok (signature_result sig timestamp)
        /\ Spec.hex64 sig)
  /\ (forall r, str_int timestamp = Ok r ->
      Exists (fun c => ~ is_scalar c) e \/ Exists (fun c => ~ is_scalar c) t ->
      zs e t timestamp = Raise UnicodeEncodeError).
Proof.
  split; [apply zs_str_raises|]. split.
  - intros r Hr He Ht.
    apply (zs_returns e t timestamp r Hr); apply encode_utf8_scalar; assumption.
  - intros r Hr H. rewrite zs_value, Hr. cbn [bind_result]. cbv zeta.
    rewrite encode_utf8_not_scalar; [reflexivity|].
    apply Exists_app. destruct H as [H|H]; [left; exact H|].
    right. apply Exists_app. right. apply Exists_app. left. exact H.
Qed.

Lemma zs_outcome_witness :
  (@str_int Demo.logging (10 ^ 4300) = Raise ValueError
   /\ @zs Demo.logging [0xDC00] (lit "hello") (10 ^ 4300) = Raise ValueError)
  /\ (@str_int Demo.logging 1700000000000 = Ok (lit "1700000000000")
      /\ Forall is_scalar (lit "d") /\ Forall is_scalar [0x4e2d; 0x1F600]
      /\ exists sig,
           @zs Demo.logging (lit "d") [0x4e2d; 0x1F600] 1700000000000
           = Ok (signature_result sig 1700000000000) /\ Spec.hex64 sig)
  /\ (Exists (fun c => ~ is_scalar c) (lit "hi" ++ [0xDC00])
      /\ @zs Demo.logging (lit "d") (lit "hi" ++ [0xDC00]) 1700000000000
         = Raise UnicodeEncodeError).
Proof.
  assert (H0 := str_int_demo_long).
  assert (H1 : Forall is_scalar (lit "d"))
    by (repeat constructor; unfold is_scalar; cbn; lia).
  assert (H2 : Forall is_scalar [0x4e2d; 0x1F600])
    by (repeat constructor; unfold is_scalar; lia).
  assert (H3 : Exists (fun c => ~ is_scalar c) (lit "hi" ++ [0xDC00])).
  { apply Exists_app. right. constructor. unfold is_scalar. lia. }
  split; [|split].
  - split; [exact H0|].
    exact (proj1 (@zs_outcome Demo.logging [0xDC00] (lit "hello") (10 ^ 4300)) H0).
  - split; [exact str_int_demo_timestamp|]. split; [exact H1|].
    split; [exact H2|].
    exact (proj1 (proj2 (@zs_outcome Demo.logging
                           (lit "d") [0x4e2d; 0x1F600] 1700000000000))
             _ str_int_demo_timestamp H1 H2).
  - split; [exact H3|].
    exact (proj2 (proj2 (@zs_outcome Demo.logging
                           (lit "d") (lit "hi" ++ [0xDC00]) 1700000000000))
             _ str_int_demo_timestamp (or_intror H3)).
Defined.

(** ** What the signed text determines *)

Lemma split_first c a1 a2 r1 r2 :
  without c a1 -> without c a2 ->
  a1 ++ c :: r1 = a2 ++ c :: r2 -> a1 = a2 /\ r1 = r2.
Proof.
  intros H1. revert a2.
  induction H1 as [|x a1 Hx _ IH]; intros a2 H2 E.
  - destruct H2 as [|y a2 Hy _]; cbn in E.
    + injection E as E. split; [reflexivity | exact E].
    + injection E as E _. congruence.
  - destruct H2 as [|y a2 Hy H2]; cbn in E.
    + injection E as E _. congruence.
    + injection E as Exy E. subst y.
      destruct (IH a2 H2 E) as [-> ->]. split; reflexivity.
Qed.

Lemma split_last c a1 a2 r1 r2 :
  without c r1 -> without c r2 ->
  a1 ++ c :: r1 = a2 ++ c :: r2 -> a1 = a2 /\ r1 = r2.
Proof.
  intros H1 H2 E. apply (f_equal (@rev Z)) in E.
  rewrite !rev_app_distr in E. cbn [rev] in E. rewrite <- !app_assoc in E.
  cbn [app] in E.
  apply split_first in E; [| apply Forall_rev; assumption ..].
  destruct E as [Er Ea]. split; apply rev_inj; assumption.
Qed.

Lemma decimal_without c n :
  c <> 45 -> ~ Spec.decimal_digit c -> without c (decimal n).
Proof.
  intros Hm Hd. destruct (decimal_plain n) as (ds & -> & _ & Hds & _).
  apply Forall_app. split.
  - destruct (n <? 0); repeat constructor. cbn. congruence.
  - eapply Forall_impl; [|exact Hds]. cbn beta. intros x Hx ->. contradiction.
Qed.

Section SignedText.

Context `{RT : Runtime}.

Lemma descriptor_ok request_id timestamp v d :
  descriptor request_id timestamp v = Ok d ->
  exists uid,
    format_value v = Ok uid
    /\ d = lit "requestId," ++ request_id ++ lit ",timestamp,"
           ++ decimal timestamp ++ lit ",user_id," ++ uid.
Proof.
  unfold descriptor.
  destruct (str_int timestamp) as [ts|x] eqn:E; cbn [bind_result];
    [|discriminate].
  destruct (format_value v) as [uid|x]; cbn [bind_result]; [|discriminate].
  intros [= <-]. exists uid. rewrite (str_int_ok _ _ E). split; reflexivity.
Qed.

(** X10.  The descriptor separates its fields by commas only.  When the
    request ids have no comma, the descriptor determines the request id,
    the timestamp and the string form of the user id; when they may have
    one, it does not: text can move between the request id and the user
    id without a change of the descriptor. *)
Theorem descriptor_fields :
  (forall r1 r2 ts1 ts2 v1 v2 d,
     without 44 r1 -> without 44 r2 ->
     descriptor r1 ts1 v1 = Ok d -> descriptor r2 ts2 v2 = Ok d ->
     r1 = r2 /\ ts1 = ts2 /\ format_value v1 = format_value v2)
  /\ (forall a b c ts,
        descriptor (a ++ descriptor_middle ts ++ b) ts (PyStr c)
        = descriptor a ts (PyStr (b ++ descriptor_middle ts ++ c))).
Proof.
  split.
  - intros r1 r2 ts1 ts2 v1 v2 d H1 H2 D1 D2.
    destruct (descriptor_ok _ _ _ _ D1) as (u1 & F1 & E1).
    destruct (descriptor_ok _ _ _ _ D2) as (u2 & F2 & E2).
    rewrite E1 in E2. clear E1. rename E2 into E.
    apply app_inv_head in E.
    change (lit ",timestamp,") with (44 :: lit "timestamp,") in E.
    cbn [app] in E.
    apply split_first in E; [|assumption ..].
    destruct E as [-> E]. split; [reflexivity|].
    apply app_inv_head in E.
    change (lit ",user_id,") with (44 :: lit "user_id,") in E.
    cbn [app] in E.
    apply split_first in E;
      [| apply decimal_without; unfold Spec.decimal_digit; lia ..].
    destruct E as [Ets E]. apply decimal_inj in Ets.
    apply app_inv_head in E. split; [exact Ets | congruence].
  - intros a b c ts. unfold descriptor, descriptor_middle.
    destruct (str_int ts) as [r|x] eqn:E; cbn [bind_result format_value];
      [|reflexivity].
    rewrite (str_int_ok _ _ E), <- !app_assoc. reflexivity.
Qed.

Lemma zs_signs_message e t timestamp :
  zs e t timestamp =
  let? r := str_int timestamp in
  let o := HMAC.hexdigest (lit "junjie") (decimal (timestamp / (5 * 60 * 1000))) in
  let? i_bytes := encode_utf8 (zs_message e t timestamp) in
  Ok (signature_result (HMAC.hexdigest o i_bytes) timestamp).
Proof.
  rewrite zs_value. unfold zs_message.
  destruct (str_int timestamp) as [r|x] eqn:E; cbn [bind_result];
    [|reflexivity].
  rewrite (str_int_ok _ _ E). reflexivity.
Qed.

(** X11.  The signed text separates descriptor, content and timestamp by
    pipes only.  When the descriptors have no pipe, the text determines
    all three; when they may have one, it does not: moving the boundary
    between [e] and [t] across a pipe leaves text and result unchanged. *)
Theorem signed_text_fields :
  (forall e1 e2 t1 t2 ts1 ts2,
     without 124 e1 -> without 124 e2 ->
     zs_message e1 t1 ts1 = zs_message e2 t2 ts2 ->
     e1 = e2 /\ t1 = t2 /\ ts1 = ts2)
  /\ (forall a b c ts,
        zs_message (a ++ lit "|" ++ b) c ts = zs_message a (b ++ lit "|" ++ c) ts
        /\ zs (a ++ lit "|" ++ b) c ts = zs a (b ++ lit "|" ++ c) ts).
Proof.
  split.
  - intros e1 e2 t1 t2 ts1 ts2 H1 H2 E. unfold zs_message in E.
    change (lit "|") with [124] in E. cbn [app] in E.
    apply split_first in E; [|assumption ..].
    destruct E as [-> E]. split; [reflexivity|].
    apply split_last in E;
      [| apply decimal_without; unfold Spec.decimal_digit; lia ..].
    destruct E as [-> Ets]. apply decimal_inj in Ets.
    split; [reflexivity|exact Ets].
  - intros a b c ts.
    assert (Hm : zs_message (a ++ lit "|" ++ b) c ts
                 = zs_message a (b ++ lit "|" ++ c) ts).
    { unfold zs_message. rewrite <- !app_assoc. reflexivity. }
    split; [exact Hm|]. rewrite !zs_signs_message, Hm. reflexivity.
Qed.

(** ** How long a derived key lasts *)

(** X12.  From any instant the derived key stays the same up to the last
    millisecond before the next multiple of 300000, also for negative
    timestamps; at that multiple the key is the digest of the next window
    index. *)
Theorem key_lifetime (timestamp d : Z) :
  0 <= d < 300000 - timestamp mod 300000 ->
  zs_o (timestamp + d) = zs_o timestamp
  /\ zs_o (timestamp - timestamp mod 300000) = zs_o timestamp
  /\ zs_o (timestamp + (300000 - timestamp mod 300000))
     = (let? m := str_int (timestamp / 300000 + 1) in
        Ok (HMAC.hexdigest (lit "junjie") m)).
Proof.
  intros Hd. rewrite !zs_o_value. change (5 * 60 * 1000) with 300000.
  pose proof (Z.div_mod timestamp 300000 ltac:(lia)) as Hdm.
  pose proof (Z.mod_pos_bound timestamp 300000 ltac:(lia)) as Hb.
  assert (E1 : (timestamp + d) / 300000 = timestamp / 300000).
  { symmetry. apply (Z.div_unique _ _ _ (timestamp mod 300000 + d)); lia. }
  assert (E2 : (timestamp - timestamp mod 300000) / 300000 = timestamp / 300000).
  { symmetry. apply (Z.div_unique _ _ _ 0); lia. }
  assert (E3 : (timestamp + (300000 - timestamp mod 300000)) / 300000
               = timestamp / 300000 + 1).
  { symmetry. apply (Z.div_unique _ _ _ 0); lia. }
  rewrite E1, E2, E3. split; [|split]; reflexivity.
Qed.

End SignedText.

Lemma key_lifetime_witness :
  0 <= 99999 < 300000 - 1700000000000 mod 300000
  /\ @zs_o Demo.logging (1700000000000 + 99999) = @zs_o Demo.logging 1700000000000
  /\ 0 <= 4 < 300000 - (-5) mod 300000
  /\ @zs_o Demo.logging (-5 + 4) = @zs_o Demo.logging (-5).
Proof.
  assert (H1 : 0 <= 99999 < 300000 - 1700000000000 mod 300000)
    by (vm_compute; split; [discriminate | reflexivity]).
  assert (H2 : 0 <= 4 < 300000 - (-5) mod 300000)
    by (vm_compute; split; [discriminate | reflexivity]).
  split; [exact H1|].
  split; [exact (proj1 (@key_lifetime Demo.logging _ _ H1))|].
  split; [exact H2|]. exact (proj1 (@key_lifetime Demo.logging _ _ H2)).
Defined.

(** ** When the entry point returns *)

Lemma encodable_lit_ascii s :
  forallb (fun c => (0 <=? c) && (c <? 128)) (lit s) = true ->
  Spec.encodable (lit s).
Proof.
  intros H. apply encodable_ascii, Forall_forall. intros c Hc.
  rewrite forallb_forall in H. specialize (H c Hc). unfold Spec.is_ascii. lia.
Qed.

(** X13.  With a log sink that returns, a timestamp that [str] converts,
    and request id, content and the string form of the user id free of
    surrogates, the function returns a signature result for every token,
    valid or not. *)
Theorem generate_returns `{RT : Runtime}
  (token request_id : pystr) (timestamp : Z) (user_content : pystr) (w : World)
  (r : pystr) :
  sink_returns ->
  str_int timestamp = Ok r ->
  Spec.encodable request_id -> Spec.encodable user_content ->
  (forall v, extract_user_id token = Ok v ->
             exists s, format_value v = Ok s /\ Spec.encodable s) ->
  exists sig w',
    generate_zs_signature token request_id timestamp user_content w
    = (Ok (signature_result sig timestamp), w')
    /\ Spec.hex64 sig.
Proof.
  intros Hsink Hts Hr Hc Hv.
  assert (Hdesc : forall u, Spec.encodable u ->
            Spec.encodable
              (lit "requestId," ++ request_id ++ lit ",timestamp,"
               ++ r ++ lit ",user_id," ++ u)).
  { intros u Hu. rewrite (str_int_ok _ _ Hts).
    repeat apply encodable_app; trivial;
      try (apply encodable_ascii, decimal_ascii);
      apply encodable_lit_ascii; reflexivity. }
  destruct (extract_user_id token) as [v|x] eqn:E.
  - rewrite (generate_with_id _ _ _ _ _ _ E), Hts. cbn [bind_result].
    destruct (Hv v eq_refl) as (s & Hs & Hes). rewrite Hs. cbn [bind_result].
    destruct (zs_returns _ user_content timestamp r Hts (Hdesc _ Hes) Hc)
      as (sig & Hz & Hh).
    exists sig, w. rewrite Hz. split; [reflexivity | exact Hh].
  - rewrite (generate_fallback _ _ _ _ _ _ E).
    destruct (Hsink (log_prefix ++ exn_str x) w) as (u & w' & Hl). rewrite Hl.
    rewrite Hts. cbn [bind_result].
    assert (Hg : Spec.encodable (lit "guest-user"))
      by (apply encodable_lit_ascii; reflexivity).
    destruct (zs_returns _ user_content timestamp r Hts (Hdesc _ Hg) Hc)
      as (sig & Hz & Hh).
    exists sig, w'. rewrite Hz. split; [reflexivity | exact Hh].
Qed.

(** ** Runs for the further properties *)

Lemma extraction_exceptions_witness :
  (without 46 (lit "abc")
   /\ @extract_user_id Demo.logging (lit "abc") = Raise IndexError)
  /\ @extract_user_id Demo.logging (lit "") = Raise IndexError
  /\ @extract_user_id Demo.logging (lit "h.abcde.s") = Raise BinasciiError
  /\ @extract_user_id Demo.logging (lit "h.e30x.s") = Raise JSONDecodeError
  /\ @extract_user_id Demo.logging (lit "h.eyJzdWIiOiAieCJ9.s")
     = Raise (KeyError (lit "id"))
  /\ @extract_user_id Demo.logging (lit "h.bnVsbA.s") = Raise TypeError.
Proof.
  assert (H : without 46 (lit "abc")) by (apply without_lit_check; reflexivity).
  split; [split; [exact H|]|].
  - exact (proj1 (@extraction_exceptions Demo.logging (lit "abc")) H).
  - split.
    { apply (proj1 (@extraction_exceptions Demo.logging (lit ""))). constructor. }
    split.
    { apply (proj1 (proj2 (@extraction_exceptions Demo.logging (lit "h.abcde.s")))
               (lit "abcde")); vm_compute; reflexivity. }
    split.
    { apply (proj1 (proj2 (proj2
               (@extraction_exceptions Demo.logging (lit "h.e30x.s"))))
               (lit "e30x") [123; 125; 49]); vm_compute; reflexivity. }
    split.
    { apply (proj1 (proj2 (proj2 (proj2
               (@extraction_exceptions Demo.logging (lit "h.eyJzdWIiOiAieCJ9.s")))))
               (lit "eyJzdWIiOiAieCJ9")
               [123; 34; 115; 117; 98; 34; 58; 32; 34; 120; 34; 125]
               [(lit "sub", PyStr (lit "x"))]); vm_compute; reflexivity. }
    apply (proj2 (proj2 (proj2 (proj2
             (@extraction_exceptions Demo.logging (lit "h.bnVsbA.s")))))
             (lit "bnVsbA") (lit "null") PyNone);
      try (vm_compute; reflexivity).
    intros d; discriminate.
Defined.

Lemma non_object_payload_uses_guest_user_witness :
  @decode_jwt_payload Demo.logging (lit "h.WzFd.s") = Ok (PyList [PyInt 1])
  /\ @generate_zs_signature Demo.logging
       (lit "h.WzFd.s") (lit "r1") 1700000000000 (lit "hello") []
     = ((let? ts := @str_int Demo.logging 1700000000000 in
         @zs Demo.logging
           (lit "requestId," ++ lit "r1" ++ lit ",timestamp,"
            ++ ts ++ lit ",user_id," ++ lit "guest-user")
           (lit "hello") 1700000000000),
        [log_prefix ++ Demo.str_exn TypeError]).
Proof.
  apply (@non_object_payload_uses_guest_user Demo.logging
           (lit "h.WzFd.s") (lit "WzFd") (lit "[1]") (PyList [PyInt 1]));
    try (vm_compute; reflexivity).
  intros d; discriminate.
Defined.

Lemma escaping_exceptions_witness :
  (@generate_zs_signature Demo.broken_sink
     (lit "abc") (lit "r1") 1700000000000 (lit "hello") [] = (Raise OSError, [])
   /\ ((exists x,
          @extract_user_id Demo.broken_sink (lit "abc") = Raise x
          /\ @debug_log Demo.broken_sink (log_prefix ++ Demo.str_exn x) []
             = (Raise OSError, []))
       \/ OSError = ValueError \/ OSError = UnicodeEncodeError))
  /\ (@generate_zs_signature Demo.logging
        (lit "h.eyJpZCI6ICJ1MTIzIn0.s") (lit "r1") (10 ^ 4300) (lit "hello") []
      = (Raise ValueError, [])
      /\ ((exists x,
             @extract_user_id Demo.logging (lit "h.eyJpZCI6ICJ1MTIzIn0.s")
             = Raise x
             /\ @debug_log Demo.logging (log_prefix ++ Demo.str_exn x) []
                = (Raise ValueError, []))
          \/ ValueError = ValueError \/ ValueError = UnicodeEncodeError)).
Proof.
  assert (H : @generate_zs_signature Demo.broken_sink
                (lit "abc") (lit "r1") 1700000000000 (lit "hello") []
              = (Raise OSError, [])) by reflexivity.
  assert (H' : @generate_zs_signature Demo.logging
                 (lit "h.eyJpZCI6ICJ1MTIzIn0.s") (lit "r1") (10 ^ 4300)
                 (lit "hello") []
               = (Raise ValueError, [])).
  { rewrite (@generate_with_id Demo.logging _ _ _ _ _ (PyStr (lit "u123")))
      by (vm_compute; reflexivity).
    rewrite str_int_demo_long. reflexivity. }
  split.
  - split; [exact H|].
    exact (@escaping_exceptions Demo.broken_sink _ _ _ _ _ _ _ H).
  - split; [exact H'|].
    exact (@escaping_exceptions Demo.logging _ _ _ _ _ _ _ H').
Defined.

Lemma failing_tokens_sign_as_guest_witness :
  @extract_user_id Demo.logging (lit "abc") = Raise IndexError
  /\ @extract_user_id Demo.logging (lit "h.e30x.s") = Raise JSONDecodeError
  /\ @extract_user_id Demo.logging (lit "h.eyJpZCI6ICJndWVzdC11c2VyIn0.s")
     = Ok (PyStr (lit "guest-user"))
  /\ fst (@generate_zs_signature Demo.logging
            (lit "abc") (lit "r1") 1700000000000 (lit "hello") [])
     = fst (@generate_zs_signature Demo.logging
              (lit "h.e30x.s") (lit "r1") 1700000000000 (lit "hello") [])
  /\ fst (@generate_zs_signature Demo.logging
            (lit "abc") (lit "r1") 1700000000000 (lit "hello") [])
     = fst (@generate_zs_signature Demo.logging
              (lit "h.eyJpZCI6ICJndWVzdC11c2VyIn0.s")
              (lit "r1") 1700000000000 (lit "hello") []).
Proof.
  assert (E1 : @extract_user_id Demo.logging (lit "abc") = Raise IndexError)
    by reflexivity.
  assert (E2 : @extract_user_id Demo.logging (lit "h.e30x.s")
               = Raise JSONDecodeError) by (vm_compute; reflexivity).
  assert (E3 : @extract_user_id Demo.logging
                 (lit "h.eyJpZCI6ICJndWVzdC11c2VyIn0.s")
               = Ok (PyStr (lit "guest-user"))) by (vm_compute; reflexivity).
  pose proof (@failing_tokens_sign_as_guest Demo.logging
                (lit "abc") (lit "h.e30x.s") (lit "r1") 1700000000000
                (lit "hello") [] _ [] IndexError tt E1 eq_refl) as [Ha _].
  pose proof (@failing_tokens_sign_as_guest Demo.logging
                (lit "abc") (lit "h.eyJpZCI6ICJndWVzdC11c2VyIn0.s")
                (lit "r1") 1700000000000
                (lit "hello") [] _ [] IndexError tt E1 eq_refl) as [_ Hb].
  split; [exact E1|]. split; [exact E2|]. split; [exact E3|]. split.
  - exact (Ha JSONDecodeError tt _ E2 eq_refl).
  - exact (Hb E3).
Defined.

Lemma descriptor_demo (v : value) (s : pystr) :
  @format_value Demo.logging v = Ok s ->
  @descriptor Demo.logging (lit "r1") 1700000000000 v
  = Ok (lit "requestId,r1,timestamp,1700000000000,user_id," ++ s).
Proof.
  intros H. unfold descriptor. rewrite str_int_demo_timestamp, H. reflexivity.
Qed.

Lemma format_demo_42 : @format_value Demo.logging (PyInt 42) = Ok (lit "42").
Proof. apply (@str_int_short Demo.logging). vm_compute. discriminate. Qed.

Lemma descriptor_fields_witness :
  without 44 (lit "r1")
  /\ @descriptor Demo.logging (lit "r1") 1700000000000 (PyInt 42)
     = Ok (lit "requestId,r1,timestamp,1700000000000,user_id," ++ lit "42")
  /\ @descriptor Demo.logging (lit "r1") 1700000000000 (PyStr (lit "42"))
     = Ok (lit "requestId,r1,timestamp,1700000000000,user_id," ++ lit "42")
  /\ (lit "r1" = lit "r1" /\ 1700000000000 = 1700000000000
      /\ @format_value Demo.logging (PyInt 42)
         = @format_value Demo.logging (PyStr (lit "42"))).
Proof.
  assert (H : without 44 (lit "r1")) by (apply without_lit_check; reflexivity).
  assert (D1 := descriptor_demo (PyInt 42) (lit "42") format_demo_42).
  assert (D2 := descriptor_demo (PyStr (lit "42")) (lit "42") eq_refl).
  split; [exact H|]. split; [exact D1|]. split; [exact D2|].
  exact (proj1 (@descriptor_fields Demo.logging)
           (lit "r1") (lit "r1") 1700000000000 1700000000000
           (PyInt 42) (PyStr (lit "42")) _ H H D1 D2).
Defined.

Lemma signed_text_fields_witness :
  without 124 (lit "requestId,r1,timestamp,5,user_id,u")
  /\ zs_message (lit "requestId,r1,timestamp,5,user_id,u") (lit "a|b") 5
     = zs_message (lit "requestId,r1,timestamp,5,user_id,u") (lit "a|b") 5
  /\ (lit "requestId,r1,timestamp,5,user_id,u"
      = lit "requestId,r1,timestamp,5,user_id,u"
      /\ lit "a|b" = lit "a|b" /\ 5 = 5).
Proof.
  assert (H : without 124 (lit "requestId,r1,timestamp,5,user_id,u"))
    by (apply without_lit_check; reflexivity).
  split; [exact H|]. split; [reflexivity|].
  exact (proj1 (@signed_text_fields Demo.logging)
           _ _ (lit "a|b") (lit "a|b") 5 5 H H eq_refl).
Defined.

(** A user id ending in [|x] with content [c] is signed as the user id
    without it with content [x|c]. *)
Example boundary_shift_vector :
  @zs Demo.logging (lit "requestId,r1,timestamp,5,user_id,u|x") (lit "c") 5
  = @zs Demo.logging (lit "requestId,r1,timestamp,5,user_id,u") (lit "x|c") 5.
Proof. rewrite !zs_signs_message. reflexivity. Qed.

Lemma generate_returns_witness :
  @sink_returns Demo.logging
  /\ @str_int Demo.logging 1700000000000 = Ok (lit "1700000000000")
  /\ Spec.encodable (lit "r1") /\ Spec.encodable (lit "hello")
  /\ exists sig w',
       @generate_zs_signature Demo.logging
         (lit "h.eyJpZCI6IDQyfQ.s") (lit "r1") 1700000000000 (lit "hello") []
       = (Ok (signature_result sig 1700000000000), w')
       /\ Spec.hex64 sig.
Proof.
  assert (Hs : @sink_returns Demo.logging).
  { intros msg w. exists tt, (w ++ [msg]). reflexivity. }
  assert (Hr : Spec.encodable (lit "r1"))
    by (apply encodable_lit_ascii; reflexivity).
  assert (Hc : Spec.encodable (lit "hello"))
    by (apply encodable_lit_ascii; reflexivity).
  split; [exact Hs|]. split; [exact str_int_demo_timestamp|].
  split; [exact Hr|]. split; [exact Hc|].
  apply (@generate_returns Demo.logging _ _ _ _ _ _ Hs str_int_demo_timestamp Hr Hc).
  intros v Hv.
  assert (E : @extract_user_id Demo.logging (lit "h.eyJpZCI6IDQyfQ.s")
              = Ok (PyInt 42)) by (vm_compute; reflexivity).
  rewrite E in Hv. injection Hv as <-.
  exists (lit "42"). split; [exact format_demo_42|].
  apply encodable_lit_ascii. reflexivity.
Defined.

(** ** The derived key is one full block *)

Lemma block_key_of_block k : length k = 64%nat -> HMAC.block_key k = k.
Proof.
  intros H. unfold HMAC.block_key, HMAC.block_size, len. cbv zeta.
  rewrite H. change (64 <? Z.of_nat 64) with false. cbv iota.
  rewrite H. apply app_nil_r.
Qed.

(** X14.  Where [str(timestamp)] returns, the derived key [o] is 64 ASCII
    characters, the block size of SHA-256: the second HMAC neither hashes
    nor zero-fills it, and the signature is the hex form of
    [SHA256((o xor 5c..) + SHA256((o xor 36..) + i))]. *)
Theorem signature_as_nested_hash `{RT : Runtime}
  (e t : pystr) (timestamp : Z) (r o : pystr) (i_bytes : bytes) :
  str_int timestamp = Ok r ->
  zs_o timestamp = Ok o ->
  encode_utf8 (zs_message e t timestamp) = Ok i_bytes ->
  encode_utf8 o = Ok o
  /\ len o = HMAC.block_size
  /\ zs e t timestamp
     = Ok (signature_result
             (HMAC.hex
                (SHA256.digest
                   (HMAC.xor_with 0x5c o
                    ++ SHA256.digest (HMAC.xor_with 0x36 o ++ i_bytes))))
             timestamp).
Proof.
  intros Hr Ho Hi. rewrite (zs_o_converted _ _ Hr) in Ho.
  change (5 * 60 * 1000) with 300000 in Ho. injection Ho as <-.
  pose proof (hexdigest_hex64 (lit "junjie") (decimal (timestamp / 300000)))
    as [Hl _].
  split; [apply encode_hexdigest|]. split.
  - unfold len. rewrite Hl. reflexivity.
  - rewrite zs_signs_message, Hr. cbn [bind_result].
    change (5 * 60 * 1000) with 300000.
    cbv zeta. rewrite Hi. cbn [bind_result].
    unfold HMAC.hexdigest at 1. unfold HMAC.digest at 1. cbv zeta.
    rewrite (block_key_of_block _ Hl). reflexivity.
Qed.

Lemma signature_as_nested_hash_witness :
  exists o i_bytes,
    @str_int Demo.logging 1700000000000 = Ok (lit "1700000000000")
    /\ @zs_o Demo.logging 1700000000000 = Ok o
    /\ encode_utf8 (zs_message (lit "d") (lit "hello") 1700000000000) = Ok i_bytes
    /\ len o = HMAC.block_size
    /\ @zs Demo.logging (lit "d") (lit "hello") 1700000000000
       = Ok (signature_result
               (HMAC.hex
                  (SHA256.digest
                     (HMAC.xor_with 0x5c o
                      ++ SHA256.digest (HMAC.xor_with 0x36 o ++ i_bytes))))
               1700000000000).
Proof.
  eexists. eexists.
  assert (Ho : @zs_o Demo.logging 1700000000000
               = Ok (HMAC.hexdigest (lit "junjie")
                       (decimal (1700000000000 / (5 * 60 * 1000)))))
    by (apply (zs_o_converted _ _ str_int_demo_timestamp)).
  assert (Hi : encode_utf8 (zs_message (lit "d") (lit "hello") 1700000000000)
               = Ok (zs_message (lit "d") (lit "hello") 1700000000000))
    by (vm_compute; reflexivity).
  split; [exact str_int_demo_timestamp|]. split; [exact Ho|]. split; [exact Hi|].
  exact (proj2 (@signature_as_nested_hash Demo.logging _ _ _ _ _ _
                  str_int_demo_timestamp Ho Hi)).
Defined.
